(** * The Stagehand Python client: session lifecycle and streamed dispatch

    A shallow embedding of [packages/core/examples/stagehand.py]: the
    [Action] and [ActResult] wrappers, the [Stagehand] client with [init],
    [goto], [act], [extract], [observe], [agent_execute], [close], and the
    server-sent-event loop of [_execute].

    Python values that come out of [json.loads] are the type [json]; Python
    [None] is [JNull].  Exceptions are the type [exn]; a computation that may
    raise returns a [res].  The client's methods run in a state-and-exception
    monad [M] over a [world]: the client object, the requests sent so far,
    and what was printed. *)

From Stdlib Require Import String Ascii List ZArith QArith Bool Lia DecimalString.
Import ListNotations.
Open Scope string_scope.
Open Scope Z_scope.
Set Warnings "-register-all".

(** ** Python values *)

Module Py.

(** What [json.loads] can return (and so what the client stores and passes
    on).  A [dict] keeps its items in insertion order, with distinct keys
    where it was built by [dict_set].  A finite float is its exact rational
    value.  A character is a code point below 256. *)
Inductive json : Type :=
| JNull
| JBool (b : bool)
| JInt (z : Z)
| JFloat (q : Q)
| JStr (s : string)
| JList (l : list json)
| JDict (d : list (string * json)).

Definition dict : Type := list (string * json).

(** [key in d] and [d[key]] *)
Fixpoint dict_lookup (d : dict) (key : string) : option json :=
  match d with
  | [] => None
  | (k, v) :: d' => if String.eqb k key then Some v else dict_lookup d' key
  end.

Definition dict_contains (d : dict) (key : string) : bool :=
  match dict_lookup d key with Some _ => true | None => false end.

(** [d[key] = v]: replaces the value in place, or appends a new item. *)
Fixpoint dict_set (d : dict) (key : string) (v : json) : dict :=
  match d with
  | [] => [(key, v)]
  | (k, w) :: d' =>
      if String.eqb k key then (k, v) :: d' else (k, w) :: dict_set d' key v
  end.

(** [{**d, **extra}] *)
Definition dict_update (d extra : dict) : dict :=
  fold_left (fun acc kv => dict_set acc (fst kv) (snd kv)) extra d.

(** Python exceptions the client meets, all subclasses of [Exception].  The
    three [Stagehand...] classes are the ones the file declares; the others
    come from httpx, json and the interpreter.  [StagehandConnectionError]
    keeps the prefix of its f-string and the exception formatted into it;
    [HTTPStatusError] keeps what the handler reads from [e.response]: the
    status code and the decoded body, [None] when reading or decoding it
    raises. *)
Inductive exn : Type :=
| StagehandError (msg : string)
| StagehandAPIError (arg : json)
| StagehandConnectionError (prefix : string) (cause : exn)
| HTTPStatusError (status_code : Z) (body : option string)
| HTTPError (kind : string)
| JSONDecodeError
| AttributeError
| TypeError
| OtherException (name : string).

(** [isinstance(e, httpx.HTTPError)]: [HTTPStatusError] is a subclass. *)
Definition is_httpx_HTTPError (e : exn) : bool :=
  match e with
  | HTTPStatusError _ _ | HTTPError _ => true
  | _ => false
  end.

Inductive res (A : Type) : Type :=
| Ok (a : A)
| Raise (e : exn).
Arguments Ok {A} a.
Arguments Raise {A} e.

Definition res_bind {A B} (r : res A) (k : A -> res B) : res B :=
  match r with
  | Ok a => k a
  | Raise e => Raise e
  end.

(** [v.get(key, default)]: only a dict has [get]. *)
Definition get (v : json) (key : string) (default : json) : res json :=
  match v with
  | JDict d =>
      match dict_lookup d key with
      | Some x => Ok x
      | None => Ok default
      end
  | _ => Raise AttributeError
  end.

(** [bool(v)] *)
Definition truthy (v : json) : bool :=
  match v with
  | JNull => false
  | JBool b => b
  | JInt z => negb (z =? 0)
  | JFloat q => negb (Qeq_bool q 0)
  | JStr s => negb (String.eqb s "")
  | JList l => match l with [] => false | _ => true end
  | JDict d => match d with [] => false | _ => true end
  end.

(** [v == "literal"]: a str equals only an equal str. *)
Definition eq_str (v : json) (lit : string) : bool :=
  match v with
  | JStr s => String.eqb s lit
  | _ => false
  end.

(** [v is None] *)
Definition is_None (v : json) : bool :=
  match v with
  | JNull => true
  | _ => false
  end.

(** [v <= n] for an int [n]: numbers and bools compare, anything else is a
    [TypeError]. *)
Definition le_int (v : json) (n : Z) : res bool :=
  match v with
  | JInt z => Ok (z <=? n)
  | JBool b => Ok ((if b then 1 else 0) <=? n)
  | JFloat q => Ok (Qle_bool q (inject_Z n))
  | _ => Raise TypeError
  end.

(** [for x in v]: a list yields its items, a dict its keys, a str its
    characters; the other values are not iterable. *)
Fixpoint chars (s : string) : list json :=
  match s with
  | EmptyString => []
  | String c s' => JStr (String c EmptyString) :: chars s'
  end.

Definition iter (v : json) : res (list json) :=
  match v with
  | JList l => Ok l
  | JDict d => Ok (map (fun kv => JStr (fst kv)) d)
  | JStr s => Ok (chars s)
  | _ => Raise TypeError
  end.

(** *** str methods *)

(** [c.isspace()] on the code points below 256. *)
Definition isspace (c : ascii) : bool :=
  let n := nat_of_ascii c in
  ((9 <=? n) && (n <=? 13) || (28 <=? n) && (n <=? 32)
   || (n =? 133) || (n =? 160))%nat.

Fixpoint lstrip (s : string) : string :=
  match s with
  | EmptyString => EmptyString
  | String c s' => if isspace c then lstrip s' else s
  end.

(** [rstrip]: a character stays when something after it stays or it is not
    a space. *)
Fixpoint rstrip (s : string) : string :=
  match s with
  | EmptyString => EmptyString
  | String c s' =>
      match rstrip s' with
      | EmptyString => if isspace c then EmptyString else String c EmptyString
      | t => String c t
      end
  end.

Definition strip (s : string) : string := rstrip (lstrip s).

(** [s.rstrip("/")] *)
Fixpoint rstrip_slash (s : string) : string :=
  match s with
  | EmptyString => EmptyString
  | String c s' =>
      match rstrip_slash s' with
      | EmptyString =>
          if Ascii.eqb c "/" then EmptyString else String c EmptyString
      | t => String c t
      end
  end.

Fixpoint startswith (s p : string) : bool :=
  match p with
  | EmptyString => true
  | String a p' =>
      match s with
      | EmptyString => false
      | String b s' => Ascii.eqb a b && startswith s' p'
      end
  end.

(** [s[n:]] *)
Fixpoint slice_from (n : nat) (s : string) : string :=
  match n, s with
  | O, _ => s
  | S n', String _ s' => slice_from n' s'
  | S _, EmptyString => EmptyString
  end.

(** The double-quote character (code 34). *)
Definition quote : ascii := "034"%char.

(** [not s] for a str *)
Definition str_empty (s : string) : bool :=
  match s with EmptyString => true | _ => false end.

(** [str(n)] for an int *)
Definition str_of_int (n : Z) : string := NilZero.string_of_int (Z.to_int n).

End Py.

(** ** A reference decoder for [json.loads]

    The client calls [json.loads] of the standard library.  The model takes
    the decoder as a parameter (class [JsonLib] below); this one decodes the
    fragment the examples use: objects, arrays, strings with the one-letter
    escapes, integers, [true], [false], [null], with blanks between tokens.
    Fractions, exponents, [\u] escapes, [NaN] and [Infinity] are outside the
    fragment. *)

Module JsonRef.
Import Py.

Definition is_blank (c : ascii) : bool :=
  (Ascii.eqb c " " || Ascii.eqb c "009" || Ascii.eqb c "010"
   || Ascii.eqb c "013")%bool.

Fixpoint skip_ws (s : string) : string :=
  match s with
  | String c s' => if is_blank c then skip_ws s' else s
  | EmptyString => s
  end.

Definition digit_of (c : ascii) : option Z :=
  let n := nat_of_ascii c in
  if ((48 <=? n) && (n <=? 57))%nat then Some (Z.of_nat n - 48) else None.

Fixpoint digits (s : string) (acc : Z) : Z * string :=
  match s with
  | String c s' =>
      match digit_of c with
      | Some d => digits s' (10 * acc + d)
      | None => (acc, s)
      end
  | EmptyString => (acc, s)
  end.

(** An integer literal is [0] or a non-zero digit followed by digits; a
    fraction or exponent behind it leaves the fragment. *)
Definition natural (s : string) : option (Z * string) :=
  match s with
  | String c s' =>
      match digit_of c with
      | Some 0 => Some (0, s')
      | Some d => Some (digits s' d)
      | None => None
      end
  | EmptyString => None
  end.

Definition integral (r : Z * string) : option (Z * string) :=
  match snd r with
  | String c _ =>
      if (Ascii.eqb c "." || Ascii.eqb c "e" || Ascii.eqb c "E")%bool
      then None else Some r
  | EmptyString => Some r
  end.

Definition number (s : string) : option (json * string) :=
  match s with
  | String "-" s' =>
      match natural s' with
      | Some r =>
          match integral r with
          | Some (n, rest) => Some (JInt (- n), rest)
          | None => None
          end
      | None => None
      end
  | _ =>
      match natural s with
      | Some r =>
          match integral r with
          | Some (n, rest) => Some (JInt n, rest)
          | None => None
          end
      | None => None
      end
  end.

Definition unescape (c : ascii) : option ascii :=
  if Ascii.eqb c quote then Some quote
  else if Ascii.eqb c "\" then Some "\"%char
  else if Ascii.eqb c "/" then Some "/"%char
  else if Ascii.eqb c "b" then Some "008"%char
  else if Ascii.eqb c "f" then Some "012"%char
  else if Ascii.eqb c "n" then Some "010"%char
  else if Ascii.eqb c "r" then Some "013"%char
  else if Ascii.eqb c "t" then Some "009"%char
  else None.

(** The text after an opening quote, up to the closing one. *)
Fixpoint str_body (s : string) : option (string * string) :=
  match s with
  | EmptyString => None
  | String c s' =>
      if Ascii.eqb c quote then Some (EmptyString, s')
      else if Ascii.eqb c "\" then
        match s' with
        | String e s'' =>
            match unescape e, str_body s'' with
            | Some x, Some (t, rest) => Some (String x t, rest)
            | _, _ => None
            end
        | EmptyString => None
        end
      else if (nat_of_ascii c <? 32)%nat then None
      else
        match str_body s' with
        | Some (t, rest) => Some (String c t, rest)
        | None => None
        end
  end.

Definition literal (lit : string) (v : json) (s : string)
  : option (json * string) :=
  if startswith s lit
  then Some (v, slice_from (String.length lit) s) else None.

Fixpoint value (fuel : nat) (s : string) {struct fuel}
  : option (json * string) :=
  match fuel with
  | O => None
  | S fuel' =>
      match s with
      | String c rest =>
          if Ascii.eqb c "[" then
            match skip_ws rest with
            | String "]" rest' => Some (JList [], rest')
            | rest' => items fuel' rest' []
            end
          else if Ascii.eqb c "{" then
            match skip_ws rest with
            | String "}" rest' => Some (JDict [], rest')
            | rest' => members fuel' rest' []
            end
          else if Ascii.eqb c quote then
            match str_body rest with
            | Some (t, rest') => Some (JStr t, rest')
            | None => None
            end
          else if Ascii.eqb c "n" then literal "null" JNull s
          else if Ascii.eqb c "t" then literal "true" (JBool true) s
          else if Ascii.eqb c "f" then literal "false" (JBool false) s
          else number s
      | EmptyString => None
      end
  end
with items (fuel : nat) (s : string) (acc : list json) {struct fuel}
  : option (json * string) :=
  match fuel with
  | O => None
  | S fuel' =>
      match value fuel' s with
      | Some (v, rest) =>
          match skip_ws rest with
          | String "," rest' => items fuel' (skip_ws rest') (acc ++ [v])
          | String "]" rest' => Some (JList (acc ++ [v]), rest')
          | _ => None
          end
      | None => None
      end
  end
with members (fuel : nat) (s : string) (acc : dict) {struct fuel}
  : option (json * string) :=
  match fuel with
  | O => None
  | S fuel' =>
      match s with
      | String c rest =>
          if Ascii.eqb c quote then
            match str_body rest with
            | Some (key, rest1) =>
                match skip_ws rest1 with
                | String ":" rest2 =>
                    match value fuel' (skip_ws rest2) with
                    | Some (v, rest3) =>
                        match skip_ws rest3 with
                        | String "," rest4 =>
                            members fuel' (skip_ws rest4) (dict_set acc key v)
                        | String "}" rest4 =>
                            Some (JDict (dict_set acc key v), rest4)
                        | _ => None
                        end
                    | None => None
                    end
                | _ => None
                end
            | None => None
            end
          else None
      | EmptyString => None
      end
  end.

(** The whole text is one value between optional blanks; [None] stands for
    [JSONDecodeError]. *)
Definition loads (s : string) : option json :=
  match value (2 * String.length s + 2) (skip_ws s) with
  | Some (v, rest) =>
      match skip_ws rest with
      | EmptyString => Some v
      | _ => None
      end
  | None => None
  end.

End JsonRef.
(** ** The libraries the client calls *)

Import Py.

(** [json.loads] on a str: the value, or the exception it raises.  A text
    that is not JSON raises [JSONDecodeError]; the library raises other
    exceptions too, which are not [JSONDecodeError]: [RecursionError] on a
    deeply nested text and [ValueError] on an integer beyond the digit limit
    (here [OtherException] with the name of the class). *)
Class JsonLib : Type := { json_loads : string -> res json }.

Module Httpx.

(** The three URLs the client formats, kept as their parts:
    [{server_url}/v1/sessions/start], [{server_url}/v1/sessions/{sid}/end]
    and [{server_url}/v1/sessions/{sid}/{method}]. *)
Inductive Endpoint : Type :=
| SessionsStart
| SessionEnd (sid : json)
| SessionMethod (sid : json) (method : string).

Record Request : Type := {
  base : string;
  path : Endpoint;
  body : option json;
  headers : list (string * string);
  streamed : bool
}.

(** A response, as what its methods give: [status_code], [json()],
    [aread()] followed by [decode()] ([None] when either raises), and
    [aiter_lines()]: the lines it yields, then a clean end ([None]) or an
    exception raised while reading. *)
Record Response : Type := {
  status_code : Z;
  json_ : res json;
  aread_decode : option string;
  aiter_lines : list string;
  aiter_end : option exn
}.

(** [response.raise_for_status()]: a status outside 2xx raises. *)
Definition raise_for_status (r : Response) : res unit :=
  if (200 <=? status_code r) && (status_code r <=? 299) then Ok tt
  else Raise (HTTPStatusError (status_code r) (aread_decode r)).

End Httpx.
Import Httpx.

(** The server and the network between: what sending a request gives, given
    the requests sent before it.  [Raise] is the call itself raising. *)
Class Network : Type := { send : list Request -> Request -> res Response }.

(** ** The wrappers of results *)

Module Action.

Record t : Type := {
  selector : json;
  description : json;
  backend_node_id : json;
  method : json;
  arguments : json;
  _raw : json
}.

Definition __init__ (data : json) : res t :=
  res_bind (get data "selector" JNull) (fun selector =>
  res_bind (get data "description" JNull) (fun description =>
  res_bind (get data "backendNodeId" JNull) (fun backend_node_id =>
  res_bind (get data "method" JNull) (fun method =>
  res_bind (get data "arguments" (JList [])) (fun arguments =>
  Ok {| selector := selector; description := description;
        backend_node_id := backend_node_id; method := method;
        arguments := arguments; _raw := data |}))))).

Definition to_dict (self : t) : json := _raw self.

End Action.

(** [[f(x) for x in l]] for an [f] that may raise. *)
Fixpoint comprehension {A B} (f : A -> res B) (l : list A) : res (list B) :=
  match l with
  | [] => Ok []
  | x :: l' =>
      res_bind (f x) (fun y =>
      res_bind (comprehension f l') (fun ys => Ok (y :: ys)))
  end.

Module ActResult.

Record t : Type := {
  success : json;
  message : json;
  actions : list Action.t;
  _raw : json
}.

Definition __init__ (data : json) : res t :=
  res_bind (get data "success" (JBool false)) (fun success =>
  res_bind (get data "message" (JStr "")) (fun message =>
  res_bind (get data "actions" (JList [])) (fun raw_actions =>
  res_bind (iter raw_actions) (fun items =>
  res_bind (comprehension Action.__init__ items) (fun actions =>
  Ok {| success := success; message := message; actions := actions;
        _raw := data |}))))).

End ActResult.

(** ** The client *)

Module Stagehand.

(** The attributes of a client.  [timeout] and [_client] only configure
    httpx, whose behaviour is the [Network]. *)
Record t : Type := {
  server_url : string;
  verbose : Z;
  session_id : json
}.

Definition __init__ (server_url : string) (verbose : Z) : t :=
  {| server_url := rstrip_slash server_url; verbose := verbose;
     session_id := JNull |}.

(** What [print] was called with: the values formatted into each f-string. *)
Inductive printed : Type :=
| LogLine (category message : json)
| InitializedSession (sid : json)
| ClosedSession (sid : json)
| CloseWarning (e : exn).

Record world : Type := {
  self : t;
  sent : list Request;
  stdout : list printed
}.

(** *** The monad of the methods: state over [world], and exceptions *)

Definition M (A : Type) : Type := world -> res A * world.

Definition ret {A} (a : A) : M A := fun w => (Ok a, w).

Definition bind {A B} (m : M A) (k : A -> M B) : M B :=
  fun w =>
    match m w with
    | (Ok a, w') => k a w'
    | (Raise e, w') => (Raise e, w')
    end.

Definition raise {A} (e : exn) : M A := fun w => (Raise e, w).

Definition lift {A} (r : res A) : M A := fun w => (r, w).

(** [try: body except ... as e: handler e] *)
Definition try_except {A} (body : M A) (handler : exn -> M A) : M A :=
  fun w =>
    match body w with
    | (Ok a, w') => (Ok a, w')
    | (Raise e, w') => handler e w'
    end.

(** [try: body finally: cleanup], for a cleanup that may raise too. *)
Definition try_finally {A} (body : M A) (cleanup : M unit) : M A :=
  fun w =>
    match body w with
    | (r, w') =>
        match cleanup w' with
        | (Ok _, w'') => (r, w'')
        | (Raise e, w'') => (Raise e, w'')
        end
    end.

Declare Scope py_scope.
Delimit Scope py_scope with py.
Notation "x <- m ;; k" := (bind m (fun x => k))
  (at level 61, m at next level, right associativity) : py_scope.
Notation "m ;; k" := (bind m (fun _ => k))
  (at level 61, right associativity) : py_scope.
Open Scope py_scope.

Definition get_self : M t := fun w => (Ok (self w), w).

(** [self.session_id = v] *)
Definition set_session_id (v : json) : M unit :=
  fun w =>
    (Ok tt,
     {| self := {| server_url := server_url (self w);
                   verbose := verbose (self w);
                   session_id := v |};
        sent := sent w; stdout := stdout w |}).

Definition print (p : printed) : M unit :=
  fun w =>
    (Ok tt, {| self := self w; sent := sent w; stdout := stdout w ++ [p] |}).

Section Methods.
Context {lib : JsonLib} {net : Network}.

(** [client.post(...)] and [client.stream("POST", ...)] *)
Definition request (r : Request) : M Response :=
  fun w =>
    (send (sent w) r,
     {| self := self w; sent := sent w ++ [r]; stdout := stdout w |}).

(** [init], called with keyword [options] *)
Definition init (options : dict) : M unit :=
  this <- get_self ;;
  if truthy (session_id this) then
    raise (StagehandError "Already initialized. Call close() first.")
  else
    let session_config :=
      dict_update
        [("env", JStr "LOCAL"); ("verbose", JInt (verbose this))] options in
    try_except
      (response <- request {| base := server_url this; path := SessionsStart;
                              body := Some (JDict session_config);
                              headers := []; streamed := false |} ;;
       lift (raise_for_status response) ;;
       data <- lift (json_ response) ;;
       sid <- lift (get data "sessionId" JNull) ;;
       set_session_id sid ;;
       if negb (truthy sid) then
         raise (StagehandAPIError (JStr "Server did not return a sessionId"))
       else if verbose this >? 0 then print (InitializedSession sid)
       else ret tt)
      (fun e =>
         if is_httpx_HTTPError e then
           raise (StagehandConnectionError "Failed to connect to server: " e)
         else raise e).

(** *** The loop of [_execute] *)

(** How the [for] loop was left: the iterator ended, or [break]. *)
Inductive loop_exit : Type := Exhausted | Broke.

Inductive control : Type := Continue | Break.

(** [d[key]] guarded by [key in d], for the dict that [get] has accepted. *)
Definition getitem (v : json) (key : string) : option json :=
  match v with
  | JDict d => dict_lookup d key
  | _ => None
  end.

(** One turn of the loop body with the local [result]: what the turn leaves
    in [result], and whether it ended in [break]. *)
Definition on_line (line : string) (result : json) : M (control * json) :=
  if str_empty (strip line) || negb (startswith line "data: ") then
    ret (Continue, result)
  else
    let data_str := slice_from 6 line in
    match json_loads data_str with
    | Raise JSONDecodeError => ret (Continue, result)
    | Raise e => raise e
    | Ok event =>
        event_type <- lift (get event "type" JNull) ;;
        event_data <- lift (get event "data" (JDict [])) ;;
        if eq_str event_type "log" then
          this <- get_self ;;
          if verbose this >? 0 then
            category <- lift (get event_data "category" (JStr "")) ;;
            message <- lift (get event_data "message" (JStr "")) ;;
            level <- lift (get event_data "level" (JInt 0)) ;;
            shown <- lift (le_int level (verbose this)) ;;
            if (shown : bool) then
              print (LogLine category message) ;; ret (Continue, result)
            else ret (Continue, result)
          else ret (Continue, result)
        else if eq_str event_type "system" then
          status <- lift (get event_data "status" JNull) ;;
          result' <-
            match getitem event_data "result" with
            | Some r => ret r
            | None =>
                match getitem event_data "error" with
                | Some err => raise (StagehandAPIError err)
                | None => ret result
                end
            end ;;
          if eq_str status "finished" then ret (Break, result')
          else ret (Continue, result')
        else ret (Continue, result)
    end.

(** [async for line in response.aiter_lines(): ...] *)
Fixpoint for_lines (lines : list string) (ending : option exn)
  (result : json) : M (loop_exit * json) :=
  match lines with
  | [] =>
      match ending with
      | None => ret (Exhausted, result)
      | Some e => raise e
      end
  | line :: rest =>
      turn <- on_line line result ;;
      match turn with
      | (Break, result') => ret (Broke, result')
      | (Continue, result') => for_lines rest ending result'
      end
  end.

(** An exception that leaves the block of [async with client.stream(...) as
    response]: leaving the block closes the response.  [raise_for_status]
    is the first statement of the block, so the response of an
    [HTTPStatusError] is closed before its body was read, and [aread()] on it
    raises from then on ([StreamClosed]): the body is out of reach of a
    handler outside the block. *)
Definition closed (e : exn) : exn :=
  match e with
  | HTTPStatusError code _ => HTTPStatusError code None
  | _ => e
  end.

(** The block of [async with client.stream(...) as response]. *)
Definition stream_block {A} (block : M A) : M A :=
  fun w =>
    match block w with
    | (Ok a, w') => (Ok a, w')
    | (Raise e, w') => (Raise (closed e), w')
    end.

Definition _execute (method : string) (args : json) : M json :=
  this <- get_self ;;
  if negb (truthy (session_id this)) then
    raise (StagehandError "Not initialized. Call init() first.")
  else
    try_except
      (response <- request {| base := server_url this;
                              path := SessionMethod (session_id this) method;
                              body := Some args;
                              headers := [("x-stream-response", "true")];
                              streamed := true |} ;;
       stream_block
         (lift (raise_for_status response) ;;
          left <- for_lines (aiter_lines response) (aiter_end response)
                    JNull ;;
          let result := snd left in
          if is_None result then
            raise (StagehandAPIError (JStr "No result received from server"))
          else ret result))
      (fun e =>
         match e with
         | HTTPStatusError code text =>
             let error_msg := "HTTP " ++ str_of_int code in
             let error_msg :=
               match text with
               | Some error_text => error_msg ++ ": " ++ error_text
               | None => error_msg
               end in
             raise (StagehandAPIError (JStr error_msg))
         | HTTPError _ => raise (StagehandConnectionError "Connection error: " e)
         | _ => raise e
         end).

(** *** The public operations

    Arguments are typed as the signatures have them: [Optional[str]] is an
    [option string], [Optional[Dict[str, Any]]] an [option dict]. *)

Definition of_opt_str (o : option string) : json :=
  match o with Some s => JStr s | None => JNull end.

Definition of_opt_dict (o : option dict) : json :=
  match o with Some d => JDict d | None => JNull end.

(** [if value is not None: request_data[key] = value] *)
Definition set_if_given (request_data : dict) (key : string)
  (value : option json) : dict :=
  match value with
  | Some v => dict_set request_data key v
  | None => request_data
  end.

Definition goto (url : string) (options : option dict)
  (frame_id : option string) : M json :=
  _execute "navigate"
    (JDict [("url", JStr url); ("options", of_opt_dict options);
            ("frameId", of_opt_str frame_id)]).

(** [instruction: Union[str, Action]] *)
Inductive instruction : Type :=
| Text (s : string)
| Act (a : Action.t).

Definition act (instr : instruction) (options : option dict)
  (frame_id : option string) : M ActResult.t :=
  let input_data :=
    match instr with
    | Act a => Action.to_dict a
    | Text s => JStr s
    end in
  let request_data := [("input", input_data)] in
  let request_data :=
    set_if_given request_data "options" (option_map JDict options) in
  let request_data :=
    set_if_given request_data "frameId" (option_map JStr frame_id) in
  result <- _execute "act" (JDict request_data) ;;
  lift (ActResult.__init__ result).

Definition extract (instr : option string) (schema options : option dict)
  (frame_id : option string) : M json :=
  let request_data := [] in
  let request_data :=
    set_if_given request_data "instruction" (option_map JStr instr) in
  let request_data :=
    set_if_given request_data "schema" (option_map JDict schema) in
  let request_data :=
    set_if_given request_data "options" (option_map JDict options) in
  let request_data :=
    set_if_given request_data "frameId" (option_map JStr frame_id) in
  _execute "extract" (JDict request_data).

Definition observe (instr : option string) (options : option dict)
  (frame_id : option string) : M (list Action.t) :=
  let request_data := [] in
  let request_data :=
    set_if_given request_data "instruction" (option_map JStr instr) in
  let request_data :=
    set_if_given request_data "options" (option_map JDict options) in
  let request_data :=
    set_if_given request_data "frameId" (option_map JStr frame_id) in
  result <- _execute "observe" (JDict request_data) ;;
  items <- lift (iter result) ;;
  lift (comprehension Action.__init__ items).

(** [x or {}] for an optional dict: the dict itself when it is given and not
    empty, an empty dict when it is [None] or empty. *)
Definition or_empty (o : option dict) : dict :=
  match o with
  | Some d => d
  | None => []
  end.

Definition agent_execute (instr : string)
  (agent_config execute_options : option dict) (frame_id : option string)
  : M json :=
  let config := or_empty agent_config in
  let exec_opts := or_empty execute_options in
  let exec_opts := dict_set exec_opts "instruction" (JStr instr) in
  _execute "agentExecute"
    (JDict [("agentConfig", JDict config);
            ("executeOptions", JDict exec_opts);
            ("frameId", of_opt_str frame_id)]).

(** [await self._client.aclose()]: releases the connection pool; nothing of
    the [world] changes. *)
Definition aclose : M unit := ret tt.

Definition close : M unit :=
  this <- get_self ;;
  (if truthy (session_id this) then
     try_finally
       (try_except
          (request {| base := server_url this;
                      path := SessionEnd (session_id this);
                      body := None; headers := []; streamed := false |} ;;
           if verbose this >? 0 then print (ClosedSession (session_id this))
           else ret tt)
          (fun e =>
             if verbose this >? 0 then print (CloseWarning e) else ret tt))
       (set_session_id JNull)
   else ret tt) ;;
  aclose.

(** *** The context manager *)

(** [__aenter__]: [await self.init()], then [return self]. *)
Definition __aenter__ : M t :=
  init [] ;;
  get_self.

(** [__aexit__(exc_type, exc_val, exc_tb)]: [await self.close()]; it returns
    [None], so an exception of the body is not suppressed. *)
Definition __aexit__ : M unit := close.

(** [async with client as stagehand: body]: [__aexit__] runs when the body
    returns and when it raises, and not when [__aenter__] raises. *)
Definition async_with {A} (body : t -> M A) : M A :=
  stagehand <- __aenter__ ;;
  try_finally (body stagehand) __aexit__.

End Methods.
End Stagehand.

(** ** Vocabulary of the protocol

    The words the properties use, defined on what the loop reads. *)

Section Frames.
Context {lib : JsonLib}.
Import Stagehand.

(** The line passes both tests of the loop and its payload decodes to
    [event]. *)
Definition frame (line : string) (event : json) : Prop :=
  startswith line "data: " = true /\
  json_loads (slice_from 6 line) = Ok event.

(** A [line] that is skipped: blank, without the prefix, or with a payload
    that [json.loads] rejects with [JSONDecodeError]. *)
Definition not_a_frame (line : string) : Prop :=
  strip line = "" \/ startswith line "data: " = false \/
  json_loads (slice_from 6 line) = Raise JSONDecodeError.

(** A decoded frame of type [kind] whose [data] is the dict [data] (the
    empty dict when the event has no ["data"]). *)
Definition typed_frame (kind : string) (line : string) (data : dict) : Prop :=
  exists ev : dict,
    frame line (JDict ev) /\
    dict_lookup ev "type" = Some (JStr kind) /\
    get (JDict ev) "data" (JDict []) = Ok (JDict data).

Definition system_frame : string -> dict -> Prop := typed_frame "system".

(** [data.get(key, default)] for a dict *)
Definition dict_get (data : dict) (key : string) (default : json) : json :=
  match dict_lookup data key with
  | Some v => v
  | None => default
  end.

(** The terminal signal: [status == "finished"]. *)
Definition finished (data : dict) : bool :=
  eq_str (dict_get data "status" JNull) "finished".

Definition control_of (data : dict) : control :=
  if finished data then Break else Continue.

(** The result payload a line carries, when it is a system frame with one. *)
Definition payload_of (line : string) : option json :=
  if startswith line "data: " then
    match json_loads (slice_from 6 line) with
    | Ok (JDict ev) =>
        if eq_str (dict_get ev "type" JNull) "system" then
          getitem (dict_get ev "data" (JDict [])) "result"
        else None
    | _ => None
    end
  else None.

(** The result payloads of the lines, in stream order. *)
Fixpoint recorded (lines : list string) : list json :=
  match lines with
  | [] => []
  | line :: rest =>
      match payload_of line with
      | Some r => r :: recorded rest
      | None => recorded rest
      end
  end.

(** The last element of a list, if any. *)
Definition last_of (l : list json) : option json :=
  match l with
  | [] => None
  | x :: l' => Some (last l' x)
  end.

(** The request [_execute] makes for [method], and the one [close] makes. *)
Definition execute_request (this : t) (method : string) (args : json)
  : Request :=
  {| base := server_url this;
     path := SessionMethod (session_id this) method;
     body := Some args;
     headers := [("x-stream-response", "true")];
     streamed := true |}.

Definition end_request (this : t) : Request :=
  {| base := server_url this;
     path := SessionEnd (session_id this);
     body := None; headers := []; streamed := false |}.

(** The world once [r] has been sent. *)
Definition sending (w : world) (r : Request) : world :=
  {| self := self w; sent := sent w ++ [r]; stdout := stdout w |}.

(** The world once [p] has been printed. *)
Definition printing (w : world) (p : printed) : world :=
  {| self := self w; sent := sent w; stdout := stdout w ++ [p] |}.


(** A computation that leaves the client object as it found it. *)
Definition keeps_self {A} (m : M A) : Prop :=
  forall w, self (snd (m w)) = self w.



Definition no_result_error : exn :=
  StagehandAPIError (JStr "No result received from server").

Definition not_initialized : exn :=
  StagehandError "Not initialized. Call init() first.".

Definition already_initialized : exn :=
  StagehandError "Already initialized. Call close() first.".

(** No session: the identifier is [None] or the empty str. *)
Definition no_session (this : t) : Prop :=
  session_id this = JNull \/ session_id this = JStr "".

(** A session is active: the identifier is truthy. *)
Definition has_session (this : t) : Prop :=
  truthy (session_id this) = true.

(** *** Further vocabulary *)

(** The configuration [init] posts: the defaults, then the caller's
    options. *)
Definition default_config (this : t) : dict :=
  [("env", JStr "LOCAL"); ("verbose", JInt (verbose this))].

Definition session_config (this : t) (options : dict) : dict :=
  dict_update (default_config this) options.

(** The request [init] makes. *)
Definition start_request (this : t) (options : dict) : Request :=
  {| base := server_url this; path := SessionsStart;
     body := Some (JDict (session_config this options));
     headers := []; streamed := false |}.

(** The world with another session identifier in the client. *)
Definition with_session (w : world) (sid : json) : world :=
  {| self := {| server_url := server_url (self w);
                verbose := verbose (self w);
                session_id := sid |};
     sent := sent w; stdout := stdout w |}.

(** The world with [out] printed after what was printed. *)
Definition printing_all (w : world) (out : list printed) : world :=
  {| self := self w; sent := sent w; stdout := (stdout w ++ out)%list |}.

(** The message of [StagehandAPIError] for a rejected request. *)
Definition http_message (code : Z) (text : option string) : string :=
  match text with
  | Some error_text => "HTTP " ++ str_of_int code ++ ": " ++ error_text
  | None => "HTTP " ++ str_of_int code
  end.

Definition is_log_line (p : printed) : Prop :=
  match p with
  | LogLine _ _ => True
  | _ => False
  end.

Definition is_dict (v : json) : Prop :=
  match v with
  | JDict _ => True
  | _ => False
  end.





(** The exception [_execute] raises for an exception [e] raised inside its
    [try]: the two [except] clauses, and everything else passing through. *)
Definition execute_handler (e : exn) : exn :=
  match e with
  | HTTPStatusError code text =>
      StagehandAPIError (JStr (http_message code text))
  | HTTPError _ => StagehandConnectionError "Connection error: " e
  | _ => e
  end.

(** The exception [init] raises for an exception [e] raised inside its
    [try]. *)
Definition init_handler (e : exn) : exn :=
  if is_httpx_HTTPError e
  then StagehandConnectionError "Failed to connect to server: " e
  else e.

(** A status code outside 2xx. *)
Definition rejected (r : Response) : Prop :=
  status_code r < 200 \/ 299 < status_code r.

(** The item of a request body for an optional argument: present when the
    argument is given. *)
Definition given (key : string) (value : option json) : dict :=
  match value with
  | Some v => [(key, v)]
  | None => []
  end.

(** What an instruction of [act] puts under ["input"]. *)
Definition input_of (instr : instruction) : json :=
  match instr with
  | Act a => Action.to_dict a
  | Text s => JStr s
  end.

Definition act_body (instr : instruction) (options : option dict)
  (frame_id : option string) : dict :=
  (("input", input_of instr)
   :: given "options" (option_map JDict options)
   ++ given "frameId" (option_map JStr frame_id))%list.

Definition extract_body (instr : option string)
  (schema options : option dict) (frame_id : option string) : dict :=
  (given "instruction" (option_map JStr instr)
   ++ given "schema" (option_map JDict schema)
   ++ given "options" (option_map JDict options)
   ++ given "frameId" (option_map JStr frame_id))%list.

Definition observe_body (instr : option string) (options : option dict)
  (frame_id : option string) : dict :=
  (given "instruction" (option_map JStr instr)
   ++ given "options" (option_map JDict options)
   ++ given "frameId" (option_map JStr frame_id))%list.

(** A str that ends with ["/"]. *)
Fixpoint ends_with_slash (s : string) : bool :=
  match s with
  | EmptyString => false
  | String c EmptyString => Ascii.eqb c "/"
  | String _ s' => ends_with_slash s'
  end.

(** A str made of ["/"] only. *)
Fixpoint all_slashes (s : string) : bool :=
  match s with
  | EmptyString => true
  | String c s' => Ascii.eqb c "/" && all_slashes s'
  end.

End Frames.

(** ** A test bench

    The reference decoder, servers that answer every request with a given
    stream, and clients with and without a session. *)

Module Bench.
Import Stagehand.

Definition ref_lib : JsonLib :=
  {| json_loads := fun s =>
       match JsonRef.loads s with
       | Some v => Ok v
       | None => Raise JSONDecodeError
       end |}.

(** A decoder that gives up on a text of more than [limit] characters, as
    [json.loads] gives up on a text nested too deeply: with an exception
    that is not [JSONDecodeError]. *)
Definition bounded_lib (limit : nat) : JsonLib :=
  {| json_loads := fun s =>
       if (limit <? String.length s)%nat
       then Raise (OtherException "RecursionError")
       else match JsonRef.loads s with
            | Some v => Ok v
            | None => Raise JSONDecodeError
            end |}.

Definition reply (lines : list string) (ending : option exn) : Response :=
  {| status_code := 200;
     json_ := Ok (JDict [("sessionId", JStr "sess-1")]);
     aread_decode := Some "";
     aiter_lines := lines;
     aiter_end := ending |}.

Definition serving (lines : list string) : Network :=
  {| send := fun _ _ => Ok (reply lines None) |}.

(** A network where every call times out. *)
Definition unreachable : Network :=
  {| send := fun _ _ => Raise (HTTPError "ConnectTimeout") |}.

Definition fresh (verbosity : Z) : world :=
  {| self := Stagehand.__init__ "http://localhost:3000/" verbosity;
     sent := []; stdout := [] |}.

Definition active (verbosity : Z) : world :=
  {| self := {| server_url := "http://localhost:3000";
                verbose := verbosity; session_id := JStr "sess-1" |};
     sent := []; stdout := [] |}.

(** Stream lines are written with an apostrophe for each double quote. *)
Fixpoint json_text (s : string) : string :=
  match s with
  | EmptyString => EmptyString
  | String c s' =>
      String (if Ascii.eqb c "'" then quote else c) (json_text s')
  end.


Definition result_line (payload : string) : string :=
  json_text
    ("data: {'type': 'system', 'data': {'result': " ++ payload ++ "}}").

Definition finished_line (payload : string) : string :=
  json_text
    ("data: {'type': 'system', 'data': {'status': 'finished', 'result': "
     ++ payload ++ "}}").

Definition error_line (message : string) : string :=
  json_text
    ("data: {'type': 'system', 'data': {'error': '" ++ message ++ "'}}").

Definition both_line (payload message : string) : string :=
  json_text
    ("data: {'type': 'system', 'data': {'result': " ++ payload
     ++ ", 'error': '" ++ message ++ "'}}").

(** The request of a bench call of [act] without arguments. *)
Definition act_request (w : world) : Request :=
  execute_request (self w) "act" (JDict []).

(** A network that gives the same answer to every request. *)
Definition answering (r : res Response) : Network :=
  {| send := fun _ _ => r |}.

(** A response with status [code] and body text [text]. *)
Definition status_reply (code : Z) (text : option string) : Response :=
  {| status_code := code;
     json_ := Raise JSONDecodeError;
     aread_decode := text;
     aiter_lines := [];
     aiter_end := None |}.

(** A 200 response whose body decodes to [data]. *)
Definition json_reply (data : res json) : Response :=
  {| status_code := 200;
     json_ := data;
     aread_decode := Some "";
     aiter_lines := [];
     aiter_end := None |}.


(** A bare terminal marker, and frames the protocol does not describe. *)
Definition marker_line : string :=
  json_text "data: {'type': 'system', 'data': {'status': 'finished'}}".

Definition ping_line : string := json_text "data: {'type': 'ping'}".

Definition odd_log_line : string :=
  json_text "data: {'type': 'log', 'data': 'oops'}".




End Bench.

(** * Properties *)

Import Stagehand.

(** ** Strings *)

Lemma rstrip_keeps_nonspace (c : ascii) (s : string) :
  isspace c = false -> str_empty (rstrip (String c s)) = false.
Proof.
  intros Hc. simpl. destruct (rstrip s); [rewrite Hc|]; reflexivity.
Qed.

Lemma startswith_data_not_blank (line : string) :
  startswith line "data: " = true -> str_empty (strip line) = false.
Proof.
  destruct line as [|c rest]; [discriminate|].
  cbn [startswith].
  destruct (Ascii.eqb_spec "d"%char c) as [<-|]; [|discriminate].
  intros _. unfold strip.
  change (lstrip (String "d" rest)) with (String "d" rest).
  now apply rstrip_keeps_nonspace.
Qed.

Lemma str_empty_iff (s : string) : str_empty s = true <-> s = "".
Proof. destruct s; simpl; split; congruence. Qed.

(** The blank test of the loop is implied by the prefix test. *)
Lemma skip_test_is_prefix_test (line : string) :
  str_empty (strip line) || negb (startswith line "data: ")
  = negb (startswith line "data: ").
Proof.
  destruct (startswith line "data: ") eqn:E.
  - now rewrite startswith_data_not_blank.
  - apply orb_true_r.
Qed.

(** ** One turn of the loop *)

Section Turn.
Context {lib : JsonLib}.

Ltac run :=
  unfold bind, lift, ret, raise, get_self, print; simpl.

Lemma on_line_skip (line : string) (result : json) (w : world) :
  not_a_frame line -> on_line line result w = (Ok (Continue, result), w).
Proof.
  unfold on_line. rewrite skip_test_is_prefix_test.
  intros [H | [H | H]].
  - destruct (startswith line "data: ") eqn:E; [|reflexivity].
    apply startswith_data_not_blank in E.
    apply str_empty_iff in H. congruence.
  - now rewrite H.
  - destruct (startswith line "data: "); [|reflexivity].
    cbn [negb]. cbv zeta. now rewrite H.
Qed.

Lemma on_line_frame (line : string) (event : json) (result : json) :
  frame line event ->
  on_line line result =
    (event_type <- lift (get event "type" JNull) ;;
     event_data <- lift (get event "data" (JDict [])) ;;
     if eq_str event_type "log" then
       this <- get_self ;;
       if verbose this >? 0 then
         category <- lift (get event_data "category" (JStr "")) ;;
         message <- lift (get event_data "message" (JStr "")) ;;
         level <- lift (get event_data "level" (JInt 0)) ;;
         shown <- lift (le_int level (verbose this)) ;;
         if (shown : bool) then
           print (LogLine category message) ;; ret (Continue, result)
         else ret (Continue, result)
       else ret (Continue, result)
     else if eq_str event_type "system" then
       status <- lift (get event_data "status" JNull) ;;
       result' <-
         match getitem event_data "result" with
         | Some r => ret r
         | None =>
             match getitem event_data "error" with
             | Some err => raise (StagehandAPIError err)
             | None => ret result
             end
         end ;;
       if eq_str status "finished" then ret (Break, result')
       else ret (Continue, result')
     else ret (Continue, result)).
Proof.
  intros [Hp Hj]. unfold on_line.
  rewrite skip_test_is_prefix_test, Hp. cbn [negb]. cbv zeta. now rewrite Hj.
Qed.

Lemma get_dict (d : dict) (key : string) (default : json) :
  get (JDict d) key default = Ok (dict_get d key default).
Proof. unfold get, dict_get. now destruct (dict_lookup d key). Qed.

(** What a system frame does to the pending result. *)
Lemma on_line_system (line : string) (data : dict) (result : json) (w : world) :
  system_frame line data ->
  on_line line result w =
    match dict_lookup data "result" with
    | Some r => (Ok (control_of data, r), w)
    | None =>
        match dict_lookup data "error" with
        | Some err => (Raise (StagehandAPIError err), w)
        | None => (Ok (control_of data, result), w)
        end
    end.
Proof.
  intros (ev & Hf & Ht & Hd).
  rewrite (on_line_frame _ _ _ Hf).
  unfold bind at 1, lift at 1. rewrite get_dict. unfold dict_get. rewrite Ht.
  unfold bind at 1, lift at 1. rewrite Hd.
  change (eq_str (JStr "system") "log") with false.
  change (eq_str (JStr "system") "system") with true.
  cbv iota. unfold bind at 1, lift at 1. rewrite get_dict.
  unfold control_of, finished, getitem.
  destruct (dict_lookup data "result") as [r|].
  - run. now destruct (eq_str _ _).
  - destruct (dict_lookup data "error") as [err|]; run.
    + reflexivity.
    + now destruct (eq_str _ _).
Qed.


End Turn.

(** An exception of [json.loads] that is not [JSONDecodeError] is not
    caught: it leaves the turn. *)
Lemma on_line_decoder_raises {lib : JsonLib}
  (line : string) (e : exn) (result : json) (w : world) :
  startswith line "data: " = true ->
  json_loads (slice_from 6 line) = Raise e ->
  e <> JSONDecodeError ->
  on_line line result w = (Raise e, w).
Proof.
  intros Hp Hj Hne. unfold on_line.
  rewrite skip_test_is_prefix_test, Hp. cbn [negb]. cbv zeta. rewrite Hj.
  destruct e; try reflexivity. now contradiction Hne.
Qed.

(** ** The loop *)

Section Loop.
Context {lib : JsonLib}.

Lemma for_lines_cons (line : string) (rest : list string)
  (ending : option exn) (result : json) (w : world) :
  for_lines (line :: rest) ending result w =
    match on_line line result w with
    | (Ok (Break, r), w') => (Ok (Broke, r), w')
    | (Ok (Continue, r), w') => for_lines rest ending r w'
    | (Raise e, w') => (Raise e, w')
    end.
Proof.
  cbn [for_lines]. unfold bind.
  destruct (on_line line result w) as [[[[|] r]|e] w']; reflexivity.
Qed.

(** Lines read to the end hand their pending result to what follows. *)
Lemma for_lines_exhausted_app (pre rest : list string) (ending : option exn) :
  forall (r0 : json) (w : world) (r : json) (w1 : world),
    for_lines pre None r0 w = (Ok (Exhausted, r), w1) ->
    for_lines (pre ++ rest) ending r0 w = for_lines rest ending r w1.
Proof.
  induction pre as [|line pre IH]; intros r0 w r w1 H.
  - cbn in H. unfold ret in H. now inversion H.
  - rewrite <- app_comm_cons, for_lines_cons. rewrite for_lines_cons in H.
    destruct (on_line line r0 w) as [[[[|] r']|e] w']; try discriminate.
    now apply IH.
Qed.


(** A turn that does nothing can be dropped from the stream. *)
Lemma for_lines_drop (line : string) (pre post : list string)
  (ending : option exn) :
  (forall r w, on_line line r w = (Ok (Continue, r), w)) ->
  forall (r0 : json) (w : world),
    for_lines (pre ++ line :: post) ending r0 w
    = for_lines (pre ++ post) ending r0 w.
Proof.
  intros Hskip. induction pre as [|l pre IH]; intros r0 w.
  - cbn [app]. now rewrite for_lines_cons, Hskip.
  - rewrite <- !app_comm_cons, !for_lines_cons.
    destruct (on_line l r0 w) as [[[[|] r']|e] w']; auto.
Qed.

End Loop.

(** ** Recorded results *)

Section Recorded.
Context {lib : JsonLib}.

Lemma eq_str_true (v : json) (lit : string) :
  eq_str v lit = true -> v = JStr lit.
Proof.
  destruct v; simpl; try discriminate.
  intros H. apply String.eqb_eq in H. now subst.
Qed.

Lemma payload_of_system (line : string) (data : dict) :
  system_frame line data -> payload_of line = dict_lookup data "result".
Proof.
  intros (ev & [Hp Hj] & Ht & Hd). unfold payload_of.
  rewrite Hp, Hj. unfold dict_get. rewrite Ht.
  change (eq_str (JStr "system") "system") with true. cbv iota.
  rewrite get_dict in Hd. unfold dict_get in Hd.
  injection Hd as ->. reflexivity.
Qed.

(** A turn that does not raise leaves in [result] the payload the line
    carries, or what was there. *)
Lemma on_line_payload (line : string) (r0 : json) (w : world)
  (c : control) (r : json) (w' : world) :
  on_line line r0 w = (Ok (c, r), w') ->
  r = match payload_of line with Some p => p | None => r0 end.
Proof.
  unfold on_line, payload_of. rewrite skip_test_is_prefix_test.
  destruct (startswith line "data: "); cbn [negb]; cbv zeta;
    [|unfold ret; intros H; now inversion H].
  destruct (json_loads (slice_from 6 line)) as [event|e];
    [|destruct e; unfold ret, raise; intros H; now inversion H].
  destruct event as [| | | | |l|ev];
    try (unfold bind, lift; simpl; discriminate).
  unfold bind at 1, lift at 1. rewrite get_dict.
  unfold bind at 1, lift at 1. rewrite get_dict.
  destruct (eq_str (dict_get ev "type" JNull) "log") eqn:Elog.
  - apply eq_str_true in Elog. rewrite Elog.
    change (eq_str (JStr "log") "system") with false. cbv iota.
    unfold bind at 1, get_self at 1.
    destruct (verbose (self w) >? 0); [|unfold ret; intros H; now inversion H].
    unfold bind, lift, ret, print.
    repeat match goal with
           | |- context [match ?x with _ => _ end] => destruct x
           end; intros H; now inversion H.
  - destruct (eq_str (dict_get ev "type" JNull) "system");
      [|unfold ret; intros H; now inversion H].
    destruct (dict_get ev "data" (JDict [])) as [| | | | |l|data];
      try (unfold bind, lift; simpl; discriminate).
    unfold bind at 1, lift at 1. rewrite get_dict. unfold getitem.
    unfold bind, ret, raise.
    destruct (dict_lookup data "result");
      [|destruct (dict_lookup data "error"); [discriminate|]];
      destruct (eq_str (dict_get data "status" JNull) "finished");
      intros H; now inversion H.
Qed.

Lemma last_cons_default (l : list json) :
  forall x y : json, last (y :: l) x = last l y.
Proof.
  induction l as [|z l IH]; intros x y; [reflexivity|].
  change (last (y :: z :: l) x) with (last (z :: l) x).
  now rewrite !IH.
Qed.

Lemma last_of_cons (x : json) (l : list json) (d : json) :
  match last_of (x :: l) with Some v => v | None => d end
  = match last_of l with Some v => v | None => x end.
Proof.
  destruct l as [|y l]; [reflexivity|].
  cbn [last_of]. apply last_cons_default.
Qed.

(** When the stream is read to its end, the pending result is the last
    recorded payload, or the initial value when none was recorded. *)
Lemma for_lines_last_recorded (lines : list string) :
  forall (r0 : json) (w : world) (r : json) (w' : world),
    for_lines lines None r0 w = (Ok (Exhausted, r), w') ->
    r = match last_of (recorded lines) with Some v => v | None => r0 end.
Proof.
  induction lines as [|line lines IH]; intros r0 w r w' H.
  - cbn in H. unfold ret in H. now inversion H.
  - rewrite for_lines_cons in H.
    destruct (on_line line r0 w) as [[[[|] r1]|e] w1] eqn:E; try discriminate.
    apply on_line_payload in E. apply IH in H. cbn [recorded].
    destruct (payload_of line) as [p|]; subst r1.
    + now rewrite last_of_cons.
    + exact H.
Qed.

End Recorded.

(** ** What the methods leave untouched *)

Section Keeps.
Context {lib : JsonLib} {net : Network}.

Lemma keeps_self_ret {A} (a : A) : keeps_self (ret a).
Proof. intros w. reflexivity. Qed.

Lemma keeps_self_raise {A} (e : exn) : keeps_self (@raise A e).
Proof. intros w. reflexivity. Qed.

Lemma keeps_self_lift {A} (r : res A) : keeps_self (lift r).
Proof. intros w. reflexivity. Qed.

Lemma keeps_self_get_self : keeps_self get_self.
Proof. intros w. reflexivity. Qed.

Lemma keeps_self_print (p : printed) : keeps_self (print p).
Proof. intros w. reflexivity. Qed.

Lemma keeps_self_request (r : Request) : keeps_self (request r).
Proof. intros w. reflexivity. Qed.

Lemma keeps_self_bind {A B} (m : M A) (k : A -> M B) :
  keeps_self m -> (forall a, keeps_self (k a)) -> keeps_self (bind m k).
Proof.
  intros Hm Hk w. unfold bind. specialize (Hm w).
  destruct (m w) as [[a|e] w1]; cbn [snd] in *; [|exact Hm].
  now rewrite Hk.
Qed.

Lemma keeps_self_try_except {A} (body : M A) (handler : exn -> M A) :
  keeps_self body -> (forall e, keeps_self (handler e)) ->
  keeps_self (try_except body handler).
Proof.
  intros Hm Hk w. unfold try_except. specialize (Hm w).
  destruct (body w) as [[a|e] w1]; cbn [snd] in *; [exact Hm|].
  now rewrite Hk.
Qed.

Ltac keeps :=
  repeat first
    [ apply keeps_self_ret | apply keeps_self_raise | apply keeps_self_lift
    | apply keeps_self_get_self | apply keeps_self_print
    | apply keeps_self_request
    | apply keeps_self_bind; [|intros ?]
    | apply keeps_self_try_except; [|intros ?]
    | match goal with
      | |- keeps_self (match ?x with _ => _ end) => destruct x
      end ].

Lemma keeps_self_on_line (line : string) (result : json) :
  keeps_self (on_line line result).
Proof. unfold on_line. cbv zeta. keeps. Qed.

Lemma keeps_self_for_lines (lines : list string) (ending : option exn) :
  forall result, keeps_self (for_lines lines ending result).
Proof.
  induction lines as [|line lines IH]; intros result; cbn [for_lines].
  - destruct ending; keeps.
  - apply keeps_self_bind; [apply keeps_self_on_line|].
    intros [[|] r]; [apply IH | keeps].
Qed.

Lemma keeps_self_execute (method : string) (args : json) :
  keeps_self (_execute method args).
Proof.
  unfold _execute. cbv zeta. keeps. apply keeps_self_for_lines.
Qed.

(** ** What is printed decides nothing *)











(** ** The two ways through [_execute] *)

Lemma execute_inactive (method : string) (args : json) (w : world) :
  truthy (session_id (self w)) = false ->
  _execute method args w = (Raise not_initialized, w).
Proof.
  intros H. unfold _execute, bind, get_self. now rewrite H.
Qed.

Lemma execute_stream (method : string) (args : json) (w : world)
  (response : Response) :
  truthy (session_id (self w)) = true ->
  send (sent w) (execute_request (self w) method args) = Ok response ->
  raise_for_status response = Ok tt ->
  forall (left : loop_exit) (r : json) (w' : world),
    for_lines (aiter_lines response) (aiter_end response) JNull
      (sending w (execute_request (self w) method args))
    = (Ok (left, r), w') ->
    _execute method args w
    = (if is_None r then Raise no_result_error else Ok r, w').
Proof.
  intros Hs Hsend Hst left r w' Hloop.
  unfold _execute, bind at 1, get_self. rewrite Hs. cbn [negb].
  unfold try_except, bind at 1, request.
  change {| base := server_url (self w);
            path := SessionMethod (session_id (self w)) method;
            body := Some args;
            headers := [("x-stream-response", "true")];
            streamed := true |}
    with (execute_request (self w) method args).
  rewrite Hsend. unfold stream_block, bind at 1, lift at 1. rewrite Hst.
  unfold bind at 1.
  change {| self := self w;
            sent := sent w ++ [execute_request (self w) method args];
            stdout := stdout w |}
    with (sending w (execute_request (self w) method args)).
  rewrite Hloop. cbn [snd].
  destruct (is_None r); reflexivity.
Qed.

Lemma execute_stream_error (method : string) (args : json) (w : world)
  (response : Response) :
  truthy (session_id (self w)) = true ->
  send (sent w) (execute_request (self w) method args) = Ok response ->
  raise_for_status response = Ok tt ->
  forall (err : json) (w' : world),
    for_lines (aiter_lines response) (aiter_end response) JNull
      (sending w (execute_request (self w) method args))
    = (Raise (StagehandAPIError err), w') ->
    _execute method args w = (Raise (StagehandAPIError err), w').
Proof.
  intros Hs Hsend Hst err w' Hloop.
  unfold _execute, bind at 1, get_self. rewrite Hs. cbn [negb].
  unfold try_except, bind at 1, request.
  change {| base := server_url (self w);
            path := SessionMethod (session_id (self w)) method;
            body := Some args;
            headers := [("x-stream-response", "true")];
            streamed := true |}
    with (execute_request (self w) method args).
  rewrite Hsend. unfold stream_block, bind at 1, lift at 1. rewrite Hst.
  unfold bind at 1.
  change {| self := self w;
            sent := sent w ++ [execute_request (self w) method args];
            stdout := stdout w |}
    with (sending w (execute_request (self w) method args)).
  now rewrite Hloop.
Qed.

End Keeps.

(** ** The event loop of a call *)

Section Dispatch.
Context {lib : JsonLib} {net : Network}.

(** C1, as the code has it: when a decoded system frame carries both a
    result payload and an error payload, the call does not fail on that
    frame.  The result payload becomes the pending result whatever was
    pending, the error payload is not looked at, and reading stops there when
    the frame's status is ["finished"] and goes on with the next line
    otherwise. *)
Theorem both_result_and_error_records_result
  (line : string) (data : dict) (r err : json) :
  system_frame line data ->
  dict_lookup data "result" = Some r ->
  dict_lookup data "error" = Some err ->
  forall (pending : json) (w : world),
    on_line line pending w = (Ok (control_of data, r), w) /\
    forall (rest : list string) (ending : option exn),
      for_lines (line :: rest) ending pending w
      = if finished data then (Ok (Broke, r), w)
        else for_lines rest ending r w.
Proof.
  intros Hf Hr _ pending w.
  assert (H : on_line line pending w = (Ok (control_of data, r), w)).
  { rewrite (on_line_system _ _ _ _ Hf). now rewrite Hr. }
  split; [exact H|].
  intros rest ending. rewrite for_lines_cons, H.
  unfold control_of. now destruct (finished data).
Qed.

(** C2, as the code has it: take a call whose stream is read to its end
    without a [break] (so without a system frame whose status is
    ["finished"]) and without an exception.  If no result payload was
    recorded, or the last one recorded is [null], the call raises
    [StagehandAPIError("No result received from server")].  If the last
    recorded payload is not [null], the call returns it. *)
Theorem stream_closure_outcome
  (method : string) (args : json) (w : world) (response : Response)
  (r : json) (w' : world) :
  has_session (self w) ->
  send (sent w) (execute_request (self w) method args) = Ok response ->
  raise_for_status response = Ok tt ->
  for_lines (aiter_lines response) (aiter_end response) JNull
    (sending w (execute_request (self w) method args))
  = (Ok (Exhausted, r), w') ->
  _execute method args w =
    (match last_of (recorded (aiter_lines response)) with
     | None => Raise no_result_error
     | Some JNull => Raise no_result_error
     | Some v => Ok v
     end, w').
Proof.
  intros Hs Hsend Hst Hloop.
  rewrite (execute_stream _ _ _ _ Hs Hsend Hst _ _ _ Hloop).
  assert (Hend : aiter_end response = None).
  { destruct (aiter_end response) as [e|] eqn:E; [|reflexivity].
    exfalso. clear - Hloop.
    revert Hloop.
    generalize (sending w (execute_request (self w) method args)) JNull.
    induction (aiter_lines response) as [|l ls IH]; intros w0 r0.
    - discriminate.
    - rewrite for_lines_cons.
      destruct (on_line l r0 w0) as [[[[|] r1]|e1] w1]; try discriminate.
      apply IH. }
  rewrite Hend in Hloop.
  apply for_lines_last_recorded in Hloop. subst r.
  destruct (last_of (recorded (aiter_lines response))) as [v|]; [|reflexivity].
  now destruct v.
Qed.


(** C4, as the code has it: a line that is blank or only white space, a
    line that does not start with ["data: "], and a line whose text after
    the prefix [json.loads] rejects with [JSONDecodeError], are skipped
    without an exception: the turn leaves the pending result, the client and
    the output as they were, and the loop gives the same outcome as on the
    stream without that line. *)
Theorem non_frames_are_skipped (line : string) :
  not_a_frame line ->
  (forall (pending : json) (w : world),
     on_line line pending w = (Ok (Continue, pending), w)) /\
  (forall (pre post : list string) (ending : option exn)
          (pending : json) (w : world),
     for_lines (pre ++ line :: post) ending pending w
     = for_lines (pre ++ post) ending pending w).
Proof.
  intros H.
  assert (Hskip : forall pending w,
             on_line line pending w = (Ok (Continue, pending), w))
    by (intros; now apply on_line_skip).
  split; [exact Hskip|].
  intros pre post ending pending w. now apply for_lines_drop.
Qed.


End Dispatch.

(** ** The session *)

Section Session.
Context {lib : JsonLib} {net : Network}.

Lemma no_session_falsy (this : t) :
  no_session this -> truthy (session_id this) = false.
Proof. intros [H | H]; now rewrite H. Qed.

Lemma init_guard (options : dict) (w : world) :
  has_session (self w) -> init options w = (Raise already_initialized, w).
Proof.
  intros H. unfold init, bind, get_self. now rewrite H.
Qed.

(** A start that returns has stored a truthy identifier. *)
Lemma init_ok_has_session (options : dict) (w w1 : world) :
  init options w = (Ok tt, w1) -> has_session (self w1).
Proof.
  unfold init, bind at 1, get_self.
  destruct (truthy (session_id (self w))); [discriminate|].
  cbv zeta. unfold try_except, bind at 1, request.
  destruct (send _ _) as [response|e].
  2: { destruct (is_httpx_HTTPError e); discriminate. }
  unfold bind at 1, lift at 1.
  destruct (raise_for_status response) as [[]|e].
  2: { destruct (is_httpx_HTTPError e); discriminate. }
  unfold bind at 1, lift at 1.
  destruct (json_ response) as [data|e].
  2: { destruct (is_httpx_HTTPError e); discriminate. }
  unfold bind at 1, lift at 1.
  destruct (get data "sessionId" JNull) as [sid|e].
  2: { destruct (is_httpx_HTTPError e); discriminate. }
  unfold bind at 1, set_session_id.
  destruct (truthy sid) eqn:Hsid; cbn [negb].
  2: { unfold raise. cbn. discriminate. }
  destruct (verbose (self w) >? 0); unfold print, ret;
    intros H; inversion H; exact Hsid.
Qed.

(** C6: with no session (the identifier is [None] or empty), each of
    [goto], [act], [extract], [observe] and [agent_execute], with any
    arguments, and [_execute] with any method, raises
    [StagehandError("Not initialized. Call init() first.")] and leaves the
    world as it was: no request has been sent. *)
Theorem operations_need_session
  (w : world) (url text : string) (instr : instruction)
  (what : option string)
  (options schema agent_config execute_options : option dict)
  (frame_id : option string) (method : string) (args : json) :
  no_session (self w) ->
  goto url options frame_id w = (Raise not_initialized, w) /\
  act instr options frame_id w = (Raise not_initialized, w) /\
  extract what schema options frame_id w = (Raise not_initialized, w) /\
  observe what options frame_id w = (Raise not_initialized, w) /\
  agent_execute text agent_config execute_options frame_id w
  = (Raise not_initialized, w) /\
  _execute method args w = (Raise not_initialized, w).
Proof.
  intros H. apply no_session_falsy in H.
  unfold goto, act, extract, observe, agent_execute, bind.
  cbv zeta. rewrite !(execute_inactive _ _ _ H).
  repeat split; reflexivity.
Qed.

(** C7: [init] called while a session is active raises
    [StagehandError("Already initialized. Call close() first.")] and leaves
    the world as it was, the session identifier with it; in particular so
    does an [init] that follows an [init] that returned. *)
Theorem init_twice_fails (options : dict) (w : world) :
  (has_session (self w) ->
   init options w = (Raise already_initialized, w)) /\
  (forall (first : dict) (w0 : world),
     init first w0 = (Ok tt, w) ->
     init options w = (Raise already_initialized, w)).
Proof.
  split.
  - apply init_guard.
  - intros first w0 H. apply init_guard.
    exact (init_ok_has_session _ _ _ H).
Qed.

(** C8: [close] on an active session returns without raising, whatever the
    network does with the teardown request, whether it answers or raises;
    afterwards the session identifier is [None], and the one request sent
    is the teardown. *)
Theorem close_never_raises (w : world) :
  has_session (self w) ->
  exists w' : world,
    close w = (Ok tt, w') /\
    session_id (self w') = JNull /\
    sent w' = (sent w ++ [end_request (self w)])%list.
Proof.
  intros H. unfold close, bind at 1, get_self. rewrite H.
  unfold bind at 1, try_finally, try_except, bind at 1, request.
  change {| base := server_url (self w);
            path := SessionEnd (session_id (self w));
            body := None; headers := []; streamed := false |}
    with (end_request (self w)).
  destruct (send (sent w) (end_request (self w))) as [response|e];
    destruct (verbose (self w) >? 0);
    unfold print, ret, set_session_id, aclose; cbn;
    eexists; repeat split.
Qed.

(** C9: [goto], [act], [extract], [observe], [agent_execute] and
    [_execute], whether they return or raise, leave the client object as it
    was, the session identifier with it. *)
Theorem operations_keep_session
  (w : world) (url text : string) (instr : instruction)
  (what : option string)
  (options schema agent_config execute_options : option dict)
  (frame_id : option string) (method : string) (args : json) :
  self (snd (goto url options frame_id w)) = self w /\
  self (snd (act instr options frame_id w)) = self w /\
  self (snd (extract what schema options frame_id w)) = self w /\
  self (snd (observe what options frame_id w)) = self w /\
  self (snd (agent_execute text agent_config execute_options frame_id w))
  = self w /\
  self (snd (_execute method args w)) = self w.
Proof.
  repeat split.
  - apply keeps_self_execute.
  - apply keeps_self_bind; [apply keeps_self_execute|].
    intros a. apply keeps_self_lift.
  - apply keeps_self_execute.
  - apply keeps_self_bind; [apply keeps_self_execute|].
    intros a. apply keeps_self_bind; intros; apply keeps_self_lift.
  - apply keeps_self_execute.
  - apply keeps_self_execute.
Qed.

End Session.

(** ** The wrappers *)

(** C10: for every dict [d], [Action(d)] is built without an exception and
    its [to_dict()] is [d], with every key of [d], modelled as an attribute
    or not. *)
Theorem action_round_trip (d : dict) :
  res_bind (Action.__init__ (JDict d)) (fun a => Ok (Action.to_dict a))
  = Ok (JDict d).
Proof.
  unfold Action.__init__. rewrite !get_dict. reflexivity.
Qed.

(** * Further properties of the client *)

(** ** Dicts *)

Lemma dict_lookup_set_same (d : dict) (k : string) (v : json) :
  dict_lookup (dict_set d k v) k = Some v.
Proof.
  induction d as [|[k0 w0] d IH]; cbn [dict_set dict_lookup].
  - now rewrite String.eqb_refl.
  - destruct (String.eqb k0 k) eqn:E; cbn [dict_lookup]; rewrite E; auto.
Qed.

Lemma dict_lookup_set_other (d : dict) (k k' : string) (v : json) :
  k' <> k -> dict_lookup (dict_set d k v) k' = dict_lookup d k'.
Proof.
  intros Hne. induction d as [|[k0 w0] d IH]; cbn [dict_set dict_lookup].
  - destruct (String.eqb_spec k k'); [congruence|reflexivity].
  - destruct (String.eqb_spec k0 k) as [->|Hk]; cbn [dict_lookup].
    + destruct (String.eqb_spec k k'); [congruence|reflexivity].
    + destruct (String.eqb k0 k'); auto.
Qed.


(** ** Starting a session *)

Section Start.
Context {lib : JsonLib} {net : Network}.

(** What [init] does once the guard is passed, by the reply to the start
    request. *)
Lemma init_unfolded (options : dict) (w : world) :
  truthy (session_id (self w)) = false ->
  init options w =
    let w1 := sending w (start_request (self w) options) in
    let wrap e :=
      if is_httpx_HTTPError e
      then StagehandConnectionError "Failed to connect to server: " e
      else e in
    match send (sent w) (start_request (self w) options) with
    | Raise e => (Raise (wrap e), w1)
    | Ok response =>
        match raise_for_status response with
        | Raise e => (Raise (wrap e), w1)
        | Ok _ =>
            match json_ response with
            | Raise e => (Raise (wrap e), w1)
            | Ok data =>
                match get data "sessionId" JNull with
                | Raise e => (Raise (wrap e), w1)
                | Ok sid =>
                    if truthy sid then
                      (Ok tt,
                       if verbose (self w) >? 0
                       then printing (with_session w1 sid)
                                     (InitializedSession sid)
                       else with_session w1 sid)
                    else
                      (Raise (StagehandAPIError
                                (JStr "Server did not return a sessionId")),
                       with_session w1 sid)
                end
            end
        end
    end.
Proof.
  intros Hs. unfold init, bind at 1, get_self. rewrite Hs. cbv zeta.
  unfold try_except, bind at 1, request.
  change {| base := server_url (self w); path := SessionsStart;
            body := Some (JDict (dict_update
                                   [("env", JStr "LOCAL");
                                    ("verbose", JInt (verbose (self w)))]
                                   options));
            headers := []; streamed := false |}
    with (start_request (self w) options).
  change {| self := self w;
            sent := sent w ++ [start_request (self w) options];
            stdout := stdout w |}
    with (sending w (start_request (self w) options)).
  destruct (send (sent w) (start_request (self w) options)) as [response|e].
  2: { destruct (is_httpx_HTTPError e); reflexivity. }
  unfold bind at 1, lift at 1.
  destruct (raise_for_status response) as [[]|e].
  2: { destruct (is_httpx_HTTPError e); reflexivity. }
  unfold bind at 1, lift at 1.
  destruct (json_ response) as [data|e].
  2: { destruct (is_httpx_HTTPError e); reflexivity. }
  unfold bind at 1, lift at 1.
  destruct (get data "sessionId" JNull) as [sid|e].
  2: { destruct (is_httpx_HTTPError e); reflexivity. }
  unfold bind at 1, set_session_id.
  destruct (truthy sid); cbn [negb].
  - destruct (verbose (self w) >? 0); reflexivity.
  - reflexivity.
Qed.

End Start.

Section StartProperties.
Context {lib : JsonLib} {net : Network}.

Lemma rejected_raises (r : Response) :
  rejected r ->
  raise_for_status r = Raise (HTTPStatusError (status_code r) (aread_decode r)).
Proof.
  unfold rejected, raise_for_status. intros H.
  destruct (200 <=? status_code r) eqn:E1; [|reflexivity].
  destruct (status_code r <=? 299) eqn:E2; [|reflexivity].
  apply Z.leb_le in E1, E2. lia.
Qed.



(** X3: without a session, a start request that httpx fails to deliver, and
    one the server answers with a status outside 2xx, both make [init] raise
    [StagehandConnectionError] with the prefix ["Failed to connect to
    server: "] around the httpx exception; for the status it is the
    [HTTPStatusError] of that response. *)
Theorem init_wraps_httpx_errors (options : dict) (w : world) :
  truthy (session_id (self w)) = false ->
  (forall kind : string,
     send (sent w) (start_request (self w) options) = Raise (HTTPError kind) ->
     init options w =
       (Raise (StagehandConnectionError "Failed to connect to server: "
                 (HTTPError kind)),
        sending w (start_request (self w) options))) /\
  (forall response : Response,
     send (sent w) (start_request (self w) options) = Ok response ->
     rejected response ->
     init options w =
       (Raise (StagehandConnectionError "Failed to connect to server: "
                 (HTTPStatusError (status_code response)
                    (aread_decode response))),
        sending w (start_request (self w) options))).
Proof.
  intros Hs. split.
  - intros kind Hsend. rewrite (init_unfolded _ _ Hs). cbv zeta.
    now rewrite Hsend.
  - intros response Hsend Hrej. rewrite (init_unfolded _ _ Hs). cbv zeta.
    now rewrite Hsend, (rejected_raises _ Hrej).
Qed.

(** X4: without a session, when the server answers 2xx with a JSON object
    that has no ["sessionId"], or a falsy one, [init] raises
    [StagehandAPIError("Server did not return a sessionId")]; the client
    then holds that falsy value ([None] when the key is missing), so it still
    has no session. *)
Theorem init_without_session_id
  (options : dict) (w : world) (response : Response) (data : dict) :
  truthy (session_id (self w)) = false ->
  send (sent w) (start_request (self w) options) = Ok response ->
  raise_for_status response = Ok tt ->
  json_ response = Ok (JDict data) ->
  truthy (dict_get data "sessionId" JNull) = false ->
  init options w =
    (Raise (StagehandAPIError (JStr "Server did not return a sessionId")),
     with_session (sending w (start_request (self w) options))
                  (dict_get data "sessionId" JNull)).
Proof.
  intros Hs Hsend Hst Hj Ht.
  rewrite (init_unfolded _ _ Hs). cbv zeta.
  now rewrite Hsend, Hst, Hj, get_dict, Ht.
Qed.

(** X5: without a session, a 2xx answer whose body is not JSON makes [init]
    raise the [JSONDecodeError] of [response.json()], and one whose body is
    JSON but not an object makes it raise [AttributeError]: neither is
    wrapped in a Stagehand exception, and the session identifier is not
    assigned. *)
Theorem init_malformed_body
  (options : dict) (w : world) (response : Response) :
  truthy (session_id (self w)) = false ->
  send (sent w) (start_request (self w) options) = Ok response ->
  raise_for_status response = Ok tt ->
  (json_ response = Raise JSONDecodeError ->
   init options w =
     (Raise JSONDecodeError, sending w (start_request (self w) options))) /\
  (forall data : json,
     json_ response = Ok data -> ~ is_dict data ->
     init options w =
       (Raise AttributeError, sending w (start_request (self w) options))).
Proof.
  intros Hs Hsend Hst. split.
  - intros Hj. rewrite (init_unfolded _ _ Hs). cbv zeta.
    now rewrite Hsend, Hst, Hj.
  - intros data Hj Hnd. rewrite (init_unfolded _ _ Hs). cbv zeta.
    rewrite Hsend, Hst, Hj.
    destruct data; try reflexivity. exfalso. now apply Hnd.
Qed.


End StartProperties.

(** ** A call, from request to outcome *)

Section Call.
Context {lib : JsonLib} {net : Network}.

(** What [_execute] does once the guard is passed, by the reply to its
    request. *)
Lemma execute_unfolded (method : string) (args : json) (w : world) :
  truthy (session_id (self w)) = true ->
  _execute method args w =
    let w1 := sending w (execute_request (self w) method args) in
    match send (sent w) (execute_request (self w) method args) with
    | Raise e => (Raise (execute_handler e), w1)
    | Ok response =>
        match raise_for_status response with
        | Raise e => (Raise (execute_handler (closed e)), w1)
        | Ok _ =>
            match for_lines (aiter_lines response) (aiter_end response)
                    JNull w1 with
            | (Raise e, w2) => (Raise (execute_handler (closed e)), w2)
            | (Ok (_, r), w2) =>
                (if is_None r then Raise no_result_error else Ok r, w2)
            end
        end
    end.
Proof.
  intros Hs. unfold _execute, bind at 1, get_self. rewrite Hs. cbn [negb].
  unfold try_except, bind at 1, request.
  change {| base := server_url (self w);
            path := SessionMethod (session_id (self w)) method;
            body := Some args;
            headers := [("x-stream-response", "true")];
            streamed := true |}
    with (execute_request (self w) method args).
  change {| self := self w;
            sent := sent w ++ [execute_request (self w) method args];
            stdout := stdout w |}
    with (sending w (execute_request (self w) method args)).
  cbv zeta.
  destruct (send (sent w) (execute_request (self w) method args))
    as [response|e].
  2: { destruct e as [| | | code [text|] | | | | |]; reflexivity. }
  unfold stream_block, bind at 1, lift at 1.
  destruct (raise_for_status response) as [[]|e].
  2: { destruct e as [| | | code [text|] | | | | |]; reflexivity. }
  unfold bind at 1.
  destruct (for_lines _ _ _ _) as [[[left r]|e] w2]; cbn [snd].
  - destruct (is_None r); reflexivity.
  - destruct e as [| | | code [text|] | | | | |]; reflexivity.
Qed.

Lemma printing_all_nil (w : world) : printing_all w [] = w.
Proof. destruct w. unfold printing_all. cbn. now rewrite app_nil_r. Qed.

Lemma printing_all_app (w : world) (out1 out2 : list printed) :
  printing_all (printing_all w out1) out2 = printing_all w (out1 ++ out2).
Proof. unfold printing_all. cbn. now rewrite app_assoc. Qed.

(** A turn leaves the world as it was, or has printed one log line, which
    takes a verbosity above 0. *)
Lemma on_line_world (line : string) (result : json) (w : world)
  (x : res (control * json)) (w' : world) :
  on_line line result w = (x, w') ->
  w' = w \/
  ((verbose (self w) >? 0) = true /\
   exists category message, w' = printing w (LogLine category message)).
Proof.
  assert (Hleaf : forall y : res (control * json),
             (y, w) = (x, w') -> w' = w \/
             ((verbose (self w) >? 0) = true /\
              exists c m, w' = printing w (LogLine c m))).
  { intros y H. inversion H. now left. }
  unfold on_line.
  destruct (str_empty (strip line) || negb (startswith line "data: "))%bool;
    [apply Hleaf|].
  cbv zeta. destruct (json_loads (slice_from 6 line)) as [event|e];
    [|destruct e; apply Hleaf].
  unfold bind at 1, lift at 1.
  destruct (get event "type" JNull) as [event_type|]; [|apply Hleaf].
  unfold bind at 1, lift at 1.
  destruct (get event "data" (JDict [])) as [event_data|]; [|apply Hleaf].
  destruct (eq_str event_type "log").
  - unfold bind at 1, get_self at 1.
    destruct (verbose (self w) >? 0) eqn:Ev; [|apply Hleaf].
    unfold bind, lift, ret, print.
    destruct (get event_data "category" (JStr "")) as [c|]; [|apply Hleaf].
    destruct (get event_data "message" (JStr "")) as [m|]; [|apply Hleaf].
    destruct (get event_data "level" (JInt 0)) as [l|]; [|apply Hleaf].
    destruct (le_int l (verbose (self w))) as [[|]|]; try apply Hleaf.
    intros H. inversion H. right. split; [reflexivity|]. now exists c, m.
  - destruct (eq_str event_type "system"); [|apply Hleaf].
    unfold bind, lift, ret, raise.
    destruct (get event_data "status" JNull) as [st|]; [|apply Hleaf].
    destruct (getitem event_data "result");
      [|destruct (getitem event_data "error")];
      try destruct (eq_str st "finished"); apply Hleaf.
Qed.

(** The loop only prints log lines, after what was printed, and none at a
    verbosity of 0 or below. *)
Lemma for_lines_world (lines : list string) (ending : option exn) :
  forall (result : json) (w : world),
  exists out : list printed,
    snd (for_lines lines ending result w) = printing_all w out /\
    Forall is_log_line out /\
    ((verbose (self w) >? 0) = false -> out = []).
Proof.
  induction lines as [|line lines IH]; intros result w.
  - exists []. rewrite printing_all_nil. cbn [for_lines].
    destruct ending; now repeat split.
  - rewrite for_lines_cons.
    destruct (on_line line result w) as [x w1] eqn:E.
    destruct (on_line_world _ _ _ _ _ E) as [-> | (Hv & c & m & ->)].
    + destruct x as [[[|] r]|e].
      * apply IH.
      * exists []. rewrite printing_all_nil. now repeat split.
      * exists []. rewrite printing_all_nil. now repeat split.
    + destruct x as [[[|] r]|e].
      * destruct (IH r (printing w (LogLine c m))) as (out & Hw & Hlog & _).
        exists (LogLine c m :: out). split; [|split].
        -- rewrite Hw. unfold printing_all, printing. cbn.
           now rewrite <- app_assoc.
        -- constructor; [exact I | exact Hlog].
        -- congruence.
      * exists [LogLine c m]. split; [reflexivity|].
        split; [repeat constructor | congruence].
      * exists [LogLine c m]. split; [reflexivity|].
        split; [repeat constructor | congruence].
Qed.

(** With a session, [_execute] sends its request and no other. *)
Lemma execute_sent (method : string) (args : json) (w : world) :
  truthy (session_id (self w)) = true ->
  sent (snd (_execute method args w))
  = (sent w ++ [execute_request (self w) method args])%list.
Proof.
  intros Hs. rewrite (execute_unfolded _ _ _ Hs). cbv zeta.
  destruct (send _ _) as [response|e]; [|reflexivity].
  destruct (raise_for_status response) as [[]|e]; [|reflexivity].
  destruct (for_lines_world (aiter_lines response) (aiter_end response) JNull
              (sending w (execute_request (self w) method args)))
    as (out & Hw & _).
  destruct (for_lines _ _ _ _) as [[[left r]|e] w2]; cbn [snd] in *;
    subst w2; reflexivity.
Qed.

End Call.

Section CallProperties.
Context {lib : JsonLib} {net : Network}.

(** X7: with a session, a request the server answers with a status outside
    2xx makes [_execute] raise [StagehandAPIError] whose message is ["HTTP "]
    and the status code, and nothing after it, whatever the body of the
    response: the handler runs once the stream block has closed the
    response, its [aread()] raises, and the body text is not added. *)
Theorem execute_rejected_request
  (method : string) (args : json) (w : world) (response : Response) :
  has_session (self w) ->
  send (sent w) (execute_request (self w) method args) = Ok response ->
  rejected response ->
  _execute method args w =
    (Raise (StagehandAPIError
              (JStr ("HTTP " ++ str_of_int (status_code response)))),
     sending w (execute_request (self w) method args)).
Proof.
  intros Hs Hsend Hrej. rewrite (execute_unfolded _ _ _ Hs). cbv zeta.
  now rewrite Hsend, (rejected_raises _ Hrej).
Qed.

(** X8: with a session, an httpx error when the request is sent, and an
    httpx error while the body is read after every line before it was read
    without a [break], both make [_execute] raise [StagehandConnectionError]
    with the prefix ["Connection error: "]; in the second case a result that
    was pending is not returned. *)
Theorem execute_connection_errors
  (method : string) (args : json) (w : world) :
  has_session (self w) ->
  (forall kind : string,
     send (sent w) (execute_request (self w) method args)
     = Raise (HTTPError kind) ->
     _execute method args w =
       (Raise (StagehandConnectionError "Connection error: " (HTTPError kind)),
        sending w (execute_request (self w) method args))) /\
  (forall (response : Response) (kind : string) (r : json) (w2 : world),
     send (sent w) (execute_request (self w) method args) = Ok response ->
     raise_for_status response = Ok tt ->
     aiter_end response = Some (HTTPError kind) ->
     for_lines (aiter_lines response) None JNull
       (sending w (execute_request (self w) method args))
     = (Ok (Exhausted, r), w2) ->
     _execute method args w =
       (Raise (StagehandConnectionError "Connection error: " (HTTPError kind)),
        w2)).
Proof.
  intros Hs. split.
  - intros kind Hsend. rewrite (execute_unfolded _ _ _ Hs). cbv zeta.
    now rewrite Hsend.
  - intros response kind r w2 Hsend Hst Hend Hloop.
    rewrite (execute_unfolded _ _ _ Hs). cbv zeta.
    rewrite Hsend, Hst, Hend.
    rewrite <- (app_nil_r (aiter_lines response)).
    rewrite (for_lines_exhausted_app _ [] _ _ _ _ _ Hloop).
    reflexivity.
Qed.

(** X9: with a session, a line with the prefix whose payload decodes to
    something other than an object (a number, a string, a list, [null]),
    met after the lines before it were read without a [break], makes
    [_execute] raise [AttributeError], not a Stagehand exception. *)
Theorem execute_non_object_event
  (method : string) (args : json) (w : world) (response : Response)
  (pre post : list string) (line : string) (event r : json) (w2 : world) :
  has_session (self w) ->
  send (sent w) (execute_request (self w) method args) = Ok response ->
  raise_for_status response = Ok tt ->
  aiter_lines response = (pre ++ line :: post)%list ->
  for_lines pre None JNull (sending w (execute_request (self w) method args))
  = (Ok (Exhausted, r), w2) ->
  frame line event ->
  ~ is_dict event ->
  _execute method args w = (Raise AttributeError, w2).
Proof.
  intros Hs Hsend Hst Hlines Hpre Hf Hnd.
  rewrite (execute_unfolded _ _ _ Hs). cbv zeta.
  rewrite Hsend, Hst, Hlines.
  rewrite (for_lines_exhausted_app _ _ _ _ _ _ _ Hpre).
  rewrite for_lines_cons, (on_line_frame _ _ _ Hf).
  destruct event; try reflexivity. exfalso. now apply Hnd.
Qed.

(** X10: with a session, [_execute] sends exactly one request, whatever the
    outcome: a streamed POST for the method under the session, with the
    arguments as JSON body and the header [x-stream-response: true]. *)
Theorem execute_sends_one_request
  (method : string) (args : json) (w : world) :
  has_session (self w) ->
  sent (snd (_execute method args w))
  = (sent w ++ [execute_request (self w) method args])%list.
Proof.
  intros Hs. now apply execute_sent.
Qed.

(** X11: [_execute] prints nothing but log lines, after what was printed
    before, and prints nothing at all when the verbosity is 0 or below. *)
Theorem execute_prints_only_logs
  (method : string) (args : json) (w : world) :
  exists out : list printed,
    stdout (snd (_execute method args w)) = (stdout w ++ out)%list /\
    Forall is_log_line out /\
    (verbose (self w) <= 0 -> out = []).
Proof.
  assert (Hnone : forall w' : world,
             stdout w' = stdout w ->
             exists out, stdout w' = (stdout w ++ out)%list /\
                         Forall is_log_line out /\
                         (verbose (self w) <= 0 -> out = [])).
  { intros w' H. exists []. rewrite app_nil_r. now repeat split. }
  destruct (truthy (session_id (self w))) eqn:Hs.
  - rewrite (execute_unfolded _ _ _ Hs). cbv zeta.
    destruct (send _ _) as [response|e]; [|now apply Hnone].
    destruct (raise_for_status response) as [[]|e]; [|now apply Hnone].
    destruct (for_lines_world (aiter_lines response) (aiter_end response)
                JNull (sending w (execute_request (self w) method args)))
      as (out & Hw & Hlog & Hquiet).
    exists out.
    destruct (for_lines _ _ _ _) as [[[left r]|e] w2]; cbn [snd] in *;
      subst w2; (split; [reflexivity|]); (split; [exact Hlog|]);
      intros Hv; apply Hquiet; cbn [sending self];
      rewrite Z.gtb_ltb; apply Z.ltb_ge; exact Hv.
  - rewrite (execute_inactive _ _ _ Hs). now apply Hnone.
Qed.

(** X12: with a session, a system frame whose status is ["finished"] and
    which carries neither a result nor an error ends the call with the
    result pending when it arrives: that result is returned, or
    [StagehandAPIError("No result received from server")] is raised when
    none is pending.  What follows the frame, lines or a read error, is not
    looked at. *)
Theorem finished_marker_returns_pending
  (method : string) (args : json) (w : world) (response : Response)
  (pre post : list string) (line : string) (data : dict)
  (r : json) (w2 : world) :
  has_session (self w) ->
  send (sent w) (execute_request (self w) method args) = Ok response ->
  raise_for_status response = Ok tt ->
  aiter_lines response = (pre ++ line :: post)%list ->
  for_lines pre None JNull (sending w (execute_request (self w) method args))
  = (Ok (Exhausted, r), w2) ->
  system_frame line data ->
  finished data = true ->
  dict_lookup data "result" = None ->
  dict_lookup data "error" = None ->
  _execute method args w
  = (if is_None r then Raise no_result_error else Ok r, w2).
Proof.
  intros Hs Hsend Hst Hlines Hpre Hf Hfin Hr He.
  rewrite (execute_unfolded _ _ _ Hs). cbv zeta.
  rewrite Hsend, Hst, Hlines.
  rewrite (for_lines_exhausted_app _ _ _ _ _ _ _ Hpre).
  rewrite for_lines_cons, (on_line_system _ _ _ _ Hf), Hr, He.
  unfold control_of. rewrite Hfin. reflexivity.
Qed.

End CallProperties.

(** ** Frames the protocol does not describe *)

Section OddFrames.
Context {lib : JsonLib}.

(** X13: a decoded object whose ["type"] is neither ["log"] nor ["system"]
    (another string, another kind of value, or no type at all) is passed
    over, whatever its ["data"]: nothing is raised, printed or recorded, and
    the loop gives what it gives on the stream without the line. *)
Theorem unknown_frames_are_ignored (line : string) (ev : dict) :
  frame line (JDict ev) ->
  eq_str (dict_get ev "type" JNull) "log" = false ->
  eq_str (dict_get ev "type" JNull) "system" = false ->
  (forall (pending : json) (w : world),
     on_line line pending w = (Ok (Continue, pending), w)) /\
  (forall (pre post : list string) (ending : option exn)
          (pending : json) (w : world),
     for_lines (pre ++ line :: post) ending pending w
     = for_lines (pre ++ post) ending pending w).
Proof.
  intros Hf Hlog Hsys.
  assert (H : forall pending w,
             on_line line pending w = (Ok (Continue, pending), w)).
  { intros pending w. rewrite (on_line_frame _ _ _ Hf).
    unfold bind at 1, lift at 1. rewrite get_dict.
    unfold bind at 1, lift at 1. rewrite get_dict.
    now rewrite Hlog, Hsys. }
  split; [exact H|].
  intros pre post ending pending w. now apply for_lines_drop.
Qed.

(** X14: a decoded log frame that is not as the protocol has it.  A client
    of verbosity 0 or below passes over it without looking at its data.  A
    client of verbosity above 0 raises [AttributeError] when the data is not
    an object, and [TypeError] when the level is a string. *)
Theorem malformed_log_frames (line : string) (ev : dict) (w : world) :
  frame line (JDict ev) ->
  dict_lookup ev "type" = Some (JStr "log") ->
  forall pending : json,
    (verbose (self w) <= 0 ->
     on_line line pending w = (Ok (Continue, pending), w)) /\
    (0 < verbose (self w) ->
     ~ is_dict (dict_get ev "data" (JDict [])) ->
     on_line line pending w = (Raise AttributeError, w)) /\
    (0 < verbose (self w) ->
     forall (data : dict) (level : string),
       dict_get ev "data" (JDict []) = JDict data ->
       dict_get data "level" (JInt 0) = JStr level ->
       on_line line pending w = (Raise TypeError, w)).
Proof.
  intros Hf Ht pending.
  assert (H : on_line line pending w =
              (if verbose (self w) >? 0 then
                 category <- lift (get (dict_get ev "data" (JDict []))
                                     "category" (JStr "")) ;;
                 message <- lift (get (dict_get ev "data" (JDict []))
                                    "message" (JStr "")) ;;
                 level <- lift (get (dict_get ev "data" (JDict []))
                                  "level" (JInt 0)) ;;
                 shown <- lift (le_int level (verbose (self w))) ;;
                 if (shown : bool) then
                   print (LogLine category message) ;; ret (Continue, pending)
                 else ret (Continue, pending)
               else ret (Continue, pending)) w).
  { rewrite (on_line_frame _ _ _ Hf).
    unfold bind at 1, lift at 1. rewrite get_dict.
    unfold dict_get at 1. rewrite Ht.
    unfold bind at 1, lift at 1. rewrite get_dict.
    change (eq_str (JStr "log") "log") with true. cbv iota.
    reflexivity. }
  rewrite H. split; [|split].
  - intros Hv.
    assert (E : (verbose (self w) >? 0) = false)
      by (rewrite Z.gtb_ltb; now apply Z.ltb_ge).
    now rewrite E.
  - intros Hv Hnd.
    assert (E : (verbose (self w) >? 0) = true)
      by (rewrite Z.gtb_ltb; now apply Z.ltb_lt).
    rewrite E.
    destruct (dict_get ev "data" (JDict [])); try reflexivity.
    exfalso. now apply Hnd.
  - intros Hv data level Hd Hl.
    assert (E : (verbose (self w) >? 0) = true)
      by (rewrite Z.gtb_ltb; now apply Z.ltb_lt).
    rewrite E, Hd. unfold bind, lift. rewrite !get_dict, Hl. reflexivity.
Qed.


(** X16: the first test of the loop never decides: a line that is blank
    after [strip()] does not start with ["data: "], so a line is skipped by
    [not line.strip() or not line.startswith("data: ")] exactly when it
    does not start with ["data: "]. *)
Theorem blank_test_is_redundant (line : string) :
  (strip line = "" -> startswith line "data: " = false) /\
  (str_empty (strip line) || negb (startswith line "data: ")
   = negb (startswith line "data: ")).
Proof.
  split.
  - intros Hblank.
    destruct (startswith line "data: ") eqn:E; [|reflexivity].
    apply startswith_data_not_blank in E.
    rewrite Hblank in E. discriminate.
  - apply skip_test_is_prefix_test.
Qed.

End OddFrames.

(** ** Ending a session *)

Section Teardown.
Context {lib : JsonLib} {net : Network}.

(** [close] always returns, leaves no session, and without a session leaves
    the world as it was. *)
Lemma close_returns (w : world) :
  exists w' : world,
    close w = (Ok tt, w') /\
    truthy (session_id (self w')) = false /\
    (truthy (session_id (self w)) = false -> w' = w).
Proof.
  unfold close, bind at 1, get_self.
  destruct (truthy (session_id (self w))) eqn:Hs.
  - unfold bind at 1, try_finally, try_except, bind at 1, request.
    destruct (send _ _) as [response|e];
      destruct (verbose (self w) >? 0);
      unfold print, ret, set_session_id, aclose; cbn;
      eexists; (split; [reflexivity|]); (split; [reflexivity|]);
      discriminate.
  - exists w. unfold bind, ret, aclose. now repeat split.
Qed.

(** With a session, [close] sends the teardown request and no other. *)
Lemma close_sent (w : world) :
  truthy (session_id (self w)) = true ->
  sent (snd (close w)) = (sent w ++ [end_request (self w)])%list.
Proof.
  intros Hs. unfold close, bind at 1, get_self. rewrite Hs.
  unfold bind at 1, try_finally, try_except, bind at 1, request.
  change {| base := server_url (self w);
            path := SessionEnd (session_id (self w));
            body := None; headers := []; streamed := false |}
    with (end_request (self w)).
  destruct (send (sent w) (end_request (self w))) as [r|e];
    destruct (verbose (self w) >? 0); reflexivity.
Qed.

(** X17: [close] without a session sends nothing and returns; and after any
    [close], with or without a session before it, the client has no session:
    a second [close] changes nothing and sends nothing, and [_execute]
    raises [StagehandError("Not initialized. Call init() first.")]. *)
Theorem after_close (w : world) :
  exists w' : world,
    close w = (Ok tt, w') /\
    (truthy (session_id (self w)) = false -> w' = w) /\
    close w' = (Ok tt, w') /\
    (forall (method : string) (args : json),
       _execute method args w' = (Raise not_initialized, w')).
Proof.
  destruct (close_returns w) as (w' & Hc & Hs & Hsame).
  exists w'. split; [exact Hc|]. split; [exact Hsame|]. split.
  - destruct (close_returns w') as (w'' & Hc' & _ & Hsame').
    rewrite Hc'. now rewrite (Hsame' Hs).
  - intros method args. now apply execute_inactive.
Qed.

(** X18: [async with]: when [__aenter__] raises, the exception is the one
    of [init], the body does not run and no teardown is sent.  When it
    returns, the body runs, then [close]; the outcome is the body's, return
    value or exception, and afterwards the client has no session. *)
Theorem async_with_closes {A} (body : t -> M A) (w : world) :
  (forall (e : exn) (w1 : world),
     init [] w = (Raise e, w1) ->
     async_with body w = (Raise e, w1)) /\
  (forall w1 : world,
     init [] w = (Ok tt, w1) ->
     exists w3 : world,
       close (snd (body (self w1) w1)) = (Ok tt, w3) /\
       async_with body w = (fst (body (self w1) w1), w3) /\
       truthy (session_id (self w3)) = false).
Proof.
  split.
  - intros e w1 H. unfold async_with, __aenter__, bind. now rewrite H.
  - intros w1 H. unfold async_with, __aenter__, bind, get_self. rewrite H.
    unfold try_finally, __aexit__.
    destruct (body (self w1) w1) as [r w2]. cbn [fst snd].
    destruct (close_returns w2) as (w3 & Hc & Hs & _).
    exists w3. rewrite Hc. now repeat split.
Qed.

End Teardown.

(** ** Wrapping results *)

Lemma action_of_dict (d : dict) :
  exists a : Action.t,
    Action.__init__ (JDict d) = Ok a /\ Action.to_dict a = JDict d.
Proof.
  unfold Action.__init__. rewrite !get_dict. cbn [res_bind].
  eexists. split; reflexivity.
Qed.

Lemma action_of_other (v : json) :
  ~ is_dict v -> Action.__init__ v = Raise AttributeError.
Proof.
  intros H. destruct v; try reflexivity. exfalso. now apply H.
Qed.

(** A comprehension over objects wraps each of them, in order. *)
Lemma actions_of_dicts (items : list json) :
  Forall is_dict items ->
  exists acts : list Action.t,
    comprehension Action.__init__ items = Ok acts /\
    map Action.to_dict acts = items.
Proof.
  induction items as [|v items IH]; intros H.
  - exists []. now split.
  - inversion H as [|x l Hv Hrest]; subst.
    destruct v; try contradiction.
    destruct (action_of_dict d) as (a & Ha & Hto).
    destruct (IH Hrest) as (acts & Hacts & Hmap).
    exists (a :: acts). cbn [comprehension map].
    rewrite Ha. cbn [res_bind]. rewrite Hacts. cbn [res_bind].
    now rewrite Hto, Hmap.
Qed.

(** A comprehension that meets an item that is not an object raises. *)
Lemma actions_of_others (items : list json) :
  Exists (fun v => ~ is_dict v) items ->
  comprehension Action.__init__ items = Raise AttributeError.
Proof.
  induction items as [|v items IH]; intros H; [inversion H|].
  cbn [comprehension].
  destruct v as [| | | | | |d];
    try reflexivity.
  destruct (action_of_dict d) as (a & Ha & _). rewrite Ha. cbn [res_bind].
  inversion H as [x l Hv | x l Hrest]; subst.
  - exfalso. now apply Hv.
  - now rewrite (IH Hrest).
Qed.

(** X19: [ActResult(d)] for an object [d] whose ["actions"] is a list of
    objects, or is missing, is built without an exception: [success] and
    [message] are the values of [d], [False] and the empty str by default;
    the actions wrap the items of the list one by one in order, so their
    [to_dict()] give the list back; and [_raw] is [d]. *)
Theorem act_result_wraps_actions (d : dict) (items : list json) :
  dict_get d "actions" (JList []) = JList items ->
  Forall is_dict items ->
  exists r : ActResult.t,
    ActResult.__init__ (JDict d) = Ok r /\
    ActResult.success r = dict_get d "success" (JBool false) /\
    ActResult.message r = dict_get d "message" (JStr "") /\
    map Action.to_dict (ActResult.actions r) = items /\
    ActResult._raw r = JDict d.
Proof.
  intros Hitems Hdicts.
  destruct (actions_of_dicts items Hdicts) as (acts & Hacts & Hmap).
  unfold ActResult.__init__. rewrite !get_dict, Hitems. cbn [res_bind iter].
  rewrite Hacts. cbn [res_bind].
  eexists. split; [reflexivity|]. now repeat split.
Qed.

(** X20: the wrappers raise on what is not an object: [Action(v)] and
    [ActResult(v)] raise [AttributeError] for a [v] that is not an object,
    and [ActResult(d)] raises [AttributeError] when one of the items of
    ["actions"] is not an object, and [TypeError] when ["actions"] is a
    number, a bool or [null]. *)
Theorem wrappers_reject_non_objects :
  (forall v : json,
     ~ is_dict v ->
     Action.__init__ v = Raise AttributeError /\
     ActResult.__init__ v = Raise AttributeError) /\
  (forall (d : dict) (items : list json),
     dict_get d "actions" (JList []) = JList items ->
     Exists (fun v => ~ is_dict v) items ->
     ActResult.__init__ (JDict d) = Raise AttributeError) /\
  (forall (d : dict) (v : json),
     dict_get d "actions" (JList []) = v ->
     (v = JNull \/ (exists b, v = JBool b) \/ (exists n, v = JInt n) \/
      (exists q, v = JFloat q)) ->
     ActResult.__init__ (JDict d) = Raise TypeError).
Proof.
  split; [|split].
  - intros v H. split; [now apply action_of_other|].
    destruct v; try reflexivity. exfalso. now apply H.
  - intros d items Hitems Hbad.
    unfold ActResult.__init__. rewrite !get_dict, Hitems.
    cbn [res_bind iter]. now rewrite (actions_of_others _ Hbad).
  - intros d v Hitems Hv.
    unfold ActResult.__init__. rewrite !get_dict, Hitems.
    destruct Hv as [-> | [[b ->] | [[n ->] | [q ->]]]]; reflexivity.
Qed.

Section Operations.
Context {lib : JsonLib} {net : Network}.

(** X21: when the observe call returns a list of objects, [observe] returns
    one [Action] per object, in order, each wrapping its object; when an item
    of the list is not an object it raises [AttributeError], although the
    call itself succeeded. *)
Theorem observe_wraps_each_action
  (what : option string) (options : option dict) (frame_id : option string)
  (w w' : world) (items : list json) :
  _execute "observe" (JDict (observe_body what options frame_id)) w
  = (Ok (JList items), w') ->
  (Forall is_dict items ->
   exists acts : list Action.t,
     observe what options frame_id w = (Ok acts, w') /\
     map Action.to_dict acts = items) /\
  (Exists (fun v => ~ is_dict v) items ->
   observe what options frame_id w = (Raise AttributeError, w')).
Proof.
  intros H.
  assert (Hbody : observe what options frame_id w =
                  (comprehension Action.__init__ items, w')).
  { unfold observe. cbv zeta.
    replace (set_if_given
               (set_if_given
                  (set_if_given [] "instruction" (option_map JStr what))
                  "options" (option_map JDict options))
               "frameId" (option_map JStr frame_id))
      with (observe_body what options frame_id)
      by (destruct what, options, frame_id; reflexivity).
    unfold bind at 1. rewrite H. reflexivity. }
  split.
  - intros Hd. destruct (actions_of_dicts items Hd) as (acts & Hacts & Hmap).
    exists acts. now rewrite Hbody, Hacts.
  - intros Hbad. now rewrite Hbody, (actions_of_others _ Hbad).
Qed.

(** X22: with a session, the one request of [act], [extract] and [observe]
    has as body an object holding exactly the arguments that were given, in
    the order of the signature: an argument left [None] gives no key.  The
    ["input"] of [act] is the instruction text, or the dict the [Action] was
    built from. *)
Theorem request_bodies_hold_given_arguments
  (w : world) (instr : instruction) (what : option string)
  (schema options : option dict) (frame_id : option string) :
  has_session (self w) ->
  sent (snd (act instr options frame_id w))
  = (sent w ++ [execute_request (self w) "act"
                  (JDict (act_body instr options frame_id))])%list /\
  sent (snd (extract what schema options frame_id w))
  = (sent w ++ [execute_request (self w) "extract"
                  (JDict (extract_body what schema options frame_id))])%list /\
  sent (snd (observe what options frame_id w))
  = (sent w ++ [execute_request (self w) "observe"
                  (JDict (observe_body what options frame_id))])%list.
Proof.
  intros Hs. split; [|split].
  - unfold act. cbv zeta.
    replace (set_if_given
               (set_if_given
                  [("input",
                    match instr with
                    | Text s => JStr s
                    | Act a => Action.to_dict a
                    end)]
                  "options" (option_map JDict options))
               "frameId" (option_map JStr frame_id))
      with (act_body instr options frame_id)
      by (destruct instr, options, frame_id; reflexivity).
    unfold bind.
    pose proof (execute_sent "act"
                  (JDict (act_body instr options frame_id)) w Hs) as H.
    destruct (_execute "act" _ w) as [[r|e] w1]; exact H.
  - unfold extract. cbv zeta.
    replace (set_if_given
               (set_if_given
                  (set_if_given
                     (set_if_given [] "instruction" (option_map JStr what))
                     "schema" (option_map JDict schema))
                  "options" (option_map JDict options))
               "frameId" (option_map JStr frame_id))
      with (extract_body what schema options frame_id)
      by (destruct what, schema, options, frame_id; reflexivity).
    now apply execute_sent.
  - unfold observe. cbv zeta.
    replace (set_if_given
               (set_if_given
                  (set_if_given [] "instruction" (option_map JStr what))
                  "options" (option_map JDict options))
               "frameId" (option_map JStr frame_id))
      with (observe_body what options frame_id)
      by (destruct what, options, frame_id; reflexivity).
    unfold bind.
    pose proof (execute_sent "observe"
                  (JDict (observe_body what options frame_id)) w Hs) as H.
    destruct (_execute "observe" _ w) as [[r|e] w1]; [|exact H].
    unfold lift. destruct (iter r); exact H.
Qed.

(** X23: with a session, the one request of [agent_execute] carries the
    caller's agent configuration whole under ["agentConfig"], and the
    caller's execute options under ["executeOptions"] with the instruction
    under ["instruction"], in place of a value the caller put there: every
    other key has the caller's value, and no key is added.  An argument left
    [None] counts as the empty object, and a frame left [None] is sent as
    [null]. *)
Theorem agent_execute_body
  (w : world) (text : string) (agent_config execute_options : option dict)
  (frame_id : option string) :
  has_session (self w) ->
  exists exec_opts : dict,
    sent (snd (agent_execute text agent_config execute_options frame_id w))
    = (sent w ++ [execute_request (self w) "agentExecute"
                    (JDict [("agentConfig",
                             JDict match agent_config with
                                   | Some config => config
                                   | None => []
                                   end);
                            ("executeOptions", JDict exec_opts);
                            ("frameId",
                             match frame_id with
                             | Some f => JStr f
                             | None => JNull
                             end)])])%list /\
    dict_lookup exec_opts "instruction" = Some (JStr text) /\
    (forall key : string,
       key <> "instruction" ->
       dict_lookup exec_opts key
       = match execute_options with
         | Some options => dict_lookup options key
         | None => None
         end).
Proof.
  intros Hs.
  exists (dict_set (or_empty execute_options) "instruction" (JStr text)).
  split; [|split].
  - unfold agent_execute. cbv zeta. rewrite (execute_sent _ _ _ Hs).
    destruct agent_config, frame_id; reflexivity.
  - apply dict_lookup_set_same.
  - intros key Hk. rewrite (dict_lookup_set_other _ _ _ _ Hk).
    now destruct execute_options.
Qed.

End Operations.

(** ** A new client, and what follows a start *)

Lemma rstrip_slash_no_trailing (s : string) :
  ends_with_slash (rstrip_slash s) = false.
Proof.
  induction s as [|c s IH]; [reflexivity|].
  cbn [rstrip_slash]. destruct (rstrip_slash s) as [|c' t] eqn:E.
  - destruct (Ascii.eqb c "/") eqn:Ec; [reflexivity|].
    cbn [ends_with_slash]. exact Ec.
  - exact IH.
Qed.

Lemma rstrip_slash_prefix (s : string) :
  exists tail : string,
    s = rstrip_slash s ++ tail /\ all_slashes tail = true.
Proof.
  induction s as [|c s (tail & Hs & Htail)].
  - now exists "".
  - cbn [rstrip_slash]. destruct (rstrip_slash s) as [|c' t] eqn:E.
    + cbn [append] in Hs. subst tail.
      destruct (Ascii.eqb c "/") eqn:Ec.
      * exists (String c s). cbn [append all_slashes]. now rewrite Ec, Htail.
      * exists s. now split.
    + exists tail. cbn [append] in *. now rewrite <- Hs.
Qed.

Section Lifecycle.
Context {lib : JsonLib} {net : Network}.

(** X24: a new client keeps the server URL without its trailing slashes,
    and only those are removed; it has no session, so [_execute] raises
    [StagehandError("Not initialized. Call init() first.")] until [init]
    has run. *)
Theorem new_client (url : string) (verbosity : Z) :
  ends_with_slash (server_url (Stagehand.__init__ url verbosity)) = false /\
  (exists tail : string,
     url = server_url (Stagehand.__init__ url verbosity) ++ tail /\
     all_slashes tail = true) /\
  verbose (Stagehand.__init__ url verbosity) = verbosity /\
  (forall (w : world) (method : string) (args : json),
     self w = Stagehand.__init__ url verbosity ->
     _execute method args w = (Raise not_initialized, w)).
Proof.
  split; [apply rstrip_slash_no_trailing|].
  split; [apply rstrip_slash_prefix|].
  split; [reflexivity|].
  intros w method args Hw. apply execute_inactive. now rewrite Hw.
Qed.

(** X25: after an [init] that returned, the client holds the identifier the
    server gave under ["sessionId"], and what follows is addressed to that
    session: the request of [_execute] goes to the method under it, and the
    request of [close] to its end. *)
Theorem calls_follow_the_started_session
  (options : dict) (w w1 : world) :
  init options w = (Ok tt, w1) ->
  exists (response : Response) (data sid : json),
    send (sent w) (start_request (self w) options) = Ok response /\
    json_ response = Ok data /\
    get data "sessionId" JNull = Ok sid /\
    session_id (self w1) = sid /\
    sent w1 = (sent w ++ [start_request (self w) options])%list /\
    (forall (method : string) (args : json),
       sent (snd (_execute method args w1))
       = (sent w1 ++ [{| base := server_url (self w);
                         path := SessionMethod sid method;
                         body := Some args;
                         headers := [("x-stream-response", "true")];
                         streamed := true |}])%list) /\
    sent (snd (close w1))
    = (sent w1 ++ [{| base := server_url (self w);
                      path := SessionEnd sid;
                      body := None; headers := []; streamed := false |}])%list.
Proof.
  intros H.
  assert (Hs : truthy (session_id (self w)) = false).
  { destruct (truthy (session_id (self w))) eqn:E; [|reflexivity].
    rewrite (init_guard options w E) in H. discriminate. }
  rewrite (init_unfolded _ _ Hs) in H. cbv zeta in H.
  destruct (send (sent w) (start_request (self w) options))
    as [response|e] eqn:Esend; [|discriminate].
  destruct (raise_for_status response) as [[]|e]; [|discriminate].
  destruct (json_ response) as [data|e] eqn:Ejson; [|discriminate].
  destruct (get data "sessionId" JNull) as [sid|e] eqn:Eget; [|discriminate].
  destruct (truthy sid) eqn:Ht; [|discriminate].
  assert (Hw1 : self w1 = {| server_url := server_url (self w);
                             verbose := verbose (self w);
                             session_id := sid |} /\
                sent w1 = (sent w ++ [start_request (self w) options])%list).
  { destruct (verbose (self w) >? 0); inversion H; now split. }
  destruct Hw1 as [Hself Hsent].
  exists response, data, sid.
  split; [reflexivity|]. split; [exact Ejson|]. split; [exact Eget|].
  split; [now rewrite Hself|]. split; [exact Hsent|].
  assert (Hact : truthy (session_id (self w1)) = true)
    by now rewrite Hself.
  split.
  - intros method args. rewrite (execute_sent _ _ _ Hact).
    unfold execute_request. now rewrite Hself.
  - rewrite (close_sent _ Hact). unfold end_request. now rewrite Hself.
Qed.

End Lifecycle.

(** * Runs on the bench

    The properties at concrete streams, decoded by the reference decoder. *)

Import Bench.

Section Runs.
#[local] Existing Instance ref_lib.

Ltac decoded_frame ev :=
  exists ev; repeat split; vm_compute; reflexivity.

Lemma both_line_is_system_frame :
  system_frame (both_line "1" "boom")
    [("result", JInt 1); ("error", JStr "boom")].
Proof.
  decoded_frame
    [("type", JStr "system");
     ("data", JDict [("result", JInt 1); ("error", JStr "boom")])].
Qed.

(** A frame with both payloads, alone in the stream: the call returns the
    result and does not raise [StagehandAPIError("boom")]. *)
Lemma error_precedence_counterexample :
  system_frame (both_line "1" "boom")
    [("result", JInt 1); ("error", JStr "boom")] /\
  fst (_execute (net := serving [both_line "1" "boom"]) "act" (JDict [])
         (active 0)) = Ok (JInt 1) /\
  fst (_execute (net := serving [both_line "1" "boom"]) "act" (JDict [])
         (active 0)) <> Raise (StagehandAPIError (JStr "boom")).
Proof.
  split; [exact both_line_is_system_frame|].
  split; [vm_compute; reflexivity|].
  vm_compute. discriminate.
Qed.

Lemma both_result_and_error_witness :
  on_line (both_line "1" "boom") JNull (active 0)
  = (Ok (Continue, JInt 1), active 0).
Proof.
  apply (both_result_and_error_records_result
           (both_line "1" "boom")
           [("result", JInt 1); ("error", JStr "boom")]
           (JInt 1) (JStr "boom")).
  - decoded_frame
      [("type", JStr "system");
       ("data", JDict [("result", JInt 1); ("error", JStr "boom")])].
  - reflexivity.
  - reflexivity.
Defined.

(** A frame with the result [1], a frame with the result [null], then the
    stream closes: result payloads were recorded, and the call raises; it
    returns neither the last recorded payload nor the one before. *)
Lemma null_result_counterexample :
  recorded [result_line "1"; result_line "null"] = [JInt 1; JNull] /\
  fst (for_lines [result_line "1"; result_line "null"] None JNull (active 0))
  = Ok (Exhausted, JNull) /\
  fst (_execute (net := serving [result_line "1"; result_line "null"])
         "navigate" (JDict []) (active 0)) = Raise no_result_error /\
  fst (_execute (net := serving [result_line "1"; result_line "null"])
         "navigate" (JDict []) (active 0)) <> Ok JNull /\
  fst (_execute (net := serving [result_line "1"; result_line "null"])
         "navigate" (JDict []) (active 0)) <> Ok (JInt 1).
Proof.
  split; [vm_compute; reflexivity|].
  split; [vm_compute; reflexivity|].
  split; [vm_compute; reflexivity|].
  split; vm_compute; discriminate.
Qed.

Lemma stream_closure_witness :
  _execute (net := serving [result_line "1"; result_line "{'ok': true}"])
    "act" (JDict []) (active 0)
  = (Ok (JDict [("ok", JBool true)]), sending (active 0) (act_request (active 0))).
Proof.
  assert (Hloop :
    for_lines [result_line "1"; result_line "{'ok': true}"] None JNull
      (sending (active 0) (act_request (active 0)))
    = (Ok (Exhausted, JDict [("ok", JBool true)]),
       sending (active 0) (act_request (active 0))))
    by (vm_compute; reflexivity).
  generalize (stream_closure_outcome
           (net := serving [result_line "1"; result_line "{'ok': true}"])
           "act" (JDict []) (active 0)
           (reply [result_line "1"; result_line "{'ok': true}"] None)
           (JDict [("ok", JBool true)])
           (sending (active 0) (act_request (active 0)))
           eq_refl eq_refl eq_refl Hloop).
  vm_compute. exact (fun H => H).
Defined.



Lemma non_frames_witness :
  on_line "data: {oops" (JInt 1) (active 2) = (Ok (Continue, JInt 1), active 2)
  /\ on_line ": keepalive" (JInt 1) (active 2)
     = (Ok (Continue, JInt 1), active 2)
  /\ on_line "   " (JInt 1) (active 2) = (Ok (Continue, JInt 1), active 2).
Proof.
  split; [|split].
  - apply (non_frames_are_skipped "data: {oops").
    right. right. vm_compute. reflexivity.
  - apply (non_frames_are_skipped ": keepalive").
    right. left. vm_compute. reflexivity.
  - apply (non_frames_are_skipped "   ").
    left. vm_compute. reflexivity.
Defined.



Lemma operations_need_session_witness :
  goto (net := serving []) "https://example.com" None None (fresh 0)
  = (Raise not_initialized, fresh 0).
Proof.
  apply (operations_need_session (net := serving []) (fresh 0)
           "https://example.com" "" (Text "") None None None None None None
           "navigate" JNull).
  left. reflexivity.
Defined.

Lemma init_twice_witness :
  init (net := serving []) [] (active 0)
  = (Raise already_initialized, active 0).
Proof.
  apply (proj1 (init_twice_fails (net := serving []) [] (active 0))).
  reflexivity.
Defined.

Lemma close_never_raises_witness :
  exists w' : world,
    close (net := unreachable) (active 1) = (Ok tt, w') /\
    session_id (self w') = JNull /\
    sent w' = [end_request (self (active 1))].
Proof.
  apply (close_never_raises (net := unreachable) (active 1)).
  reflexivity.
Defined.

(** A line with the prefix whose payload is the JSON number 42: the payload
    is decoded, and the turn raises [AttributeError] at [event.get]; the call
    that returns 1 without the line raises with it. *)
Lemma decoding_raises_counterexample :
  frame "data: 42" (JInt 42) /\
  fst (on_line "data: 42" JNull (active 0)) = Raise AttributeError /\
  fst (_execute (net := serving ["data: 42"; finished_line "1"])
         "act" (JDict []) (active 0)) = Raise AttributeError /\
  fst (_execute (net := serving [finished_line "1"])
         "act" (JDict []) (active 0)) = Ok (JInt 1).
Proof.
  split; [split; vm_compute; reflexivity|].
  repeat split; vm_compute; reflexivity.
Qed.

(** A payload on which the decoder gives up with an exception that is not
    [JSONDecodeError]: the exception leaves the turn. *)
Lemma decoder_gives_up_run :
  fst (on_line (lib := bounded_lib 8) "data: [[[[[[[[1]]]]]]]]" JNull
         (active 0))
  = Raise (OtherException "RecursionError").
Proof. vm_compute. reflexivity. Qed.

(** ** Runs of the further properties *)



Lemma init_wraps_httpx_errors_witness :
  init (net := unreachable) [] (fresh 0) =
    (Raise (StagehandConnectionError "Failed to connect to server: "
              (HTTPError "ConnectTimeout")),
     sending (fresh 0) (start_request (self (fresh 0)) [])).
Proof.
  apply (proj1 (init_wraps_httpx_errors (net := unreachable) [] (fresh 0)
                  eq_refl) "ConnectTimeout").
  reflexivity.
Defined.

Lemma init_without_session_id_witness :
  init (net := answering (Ok (json_reply (Ok (JDict []))))) [] (fresh 0) =
    (Raise (StagehandAPIError (JStr "Server did not return a sessionId")),
     with_session (sending (fresh 0) (start_request (self (fresh 0)) []))
       (dict_get [] "sessionId" JNull)).
Proof.
  apply (init_without_session_id
           (net := answering (Ok (json_reply (Ok (JDict []))))) [] (fresh 0)
           (json_reply (Ok (JDict []))) []);
    reflexivity.
Defined.

Lemma init_malformed_body_witness :
  init (net := answering (Ok (json_reply (Raise JSONDecodeError)))) []
    (fresh 0)
  = (Raise JSONDecodeError,
     sending (fresh 0) (start_request (self (fresh 0)) [])).
Proof.
  apply (proj1 (init_malformed_body
                  (net := answering (Ok (json_reply (Raise JSONDecodeError))))
                  [] (fresh 0) (json_reply (Raise JSONDecodeError))
                  eq_refl eq_refl eq_refl)).
  reflexivity.
Defined.


Lemma execute_rejected_request_witness :
  _execute (net := answering (Ok (status_reply 500 (Some "boom"))))
    "act" (JDict []) (active 0)
  = (Raise (StagehandAPIError (JStr ("HTTP " ++ str_of_int 500))),
     sending (active 0) (act_request (active 0))).
Proof.
  apply (execute_rejected_request
           (net := answering (Ok (status_reply 500 (Some "boom"))))
           "act" (JDict []) (active 0) (status_reply 500 (Some "boom"))).
  - reflexivity.
  - reflexivity.
  - right. reflexivity.
Defined.

Lemma execute_connection_errors_witness :
  _execute (net := unreachable) "act" (JDict []) (active 0)
  = (Raise (StagehandConnectionError "Connection error: "
              (HTTPError "ConnectTimeout")),
     sending (active 0) (act_request (active 0))).
Proof.
  apply (proj1 (execute_connection_errors (net := unreachable)
                  "act" (JDict []) (active 0) eq_refl) "ConnectTimeout").
  reflexivity.
Defined.

Lemma execute_non_object_event_witness :
  _execute (net := serving ["data: 42"]) "act" (JDict []) (active 0)
  = (Raise AttributeError, sending (active 0) (act_request (active 0))).
Proof.
  apply (execute_non_object_event (net := serving ["data: 42"])
           "act" (JDict []) (active 0) (reply ["data: 42"] None)
           [] [] "data: 42" (JInt 42) JNull).
  - reflexivity.
  - reflexivity.
  - reflexivity.
  - reflexivity.
  - reflexivity.
  - split; vm_compute; reflexivity.
  - simpl. intros H. exact H.
Defined.

Lemma execute_sends_one_request_witness :
  sent (snd (_execute (net := serving [result_line "1"]) "act" (JDict [])
               (active 0)))
  = (sent (active 0) ++ [act_request (active 0)])%list.
Proof.
  apply (execute_sends_one_request (net := serving [result_line "1"])
           "act" (JDict []) (active 0)).
  reflexivity.
Defined.

Lemma marker_line_is_system_frame :
  system_frame marker_line [("status", JStr "finished")].
Proof.
  decoded_frame
    [("type", JStr "system"); ("data", JDict [("status", JStr "finished")])].
Qed.

Lemma finished_marker_witness :
  _execute (net := serving [result_line "7"; marker_line; error_line "late"])
    "act" (JDict []) (active 0)
  = (if is_None (JInt 7) then Raise no_result_error else Ok (JInt 7),
     sending (active 0) (act_request (active 0))).
Proof.
  apply (finished_marker_returns_pending
           (net := serving [result_line "7"; marker_line; error_line "late"])
           "act" (JDict []) (active 0)
           (reply [result_line "7"; marker_line; error_line "late"] None)
           [result_line "7"] [error_line "late"] marker_line
           [("status", JStr "finished")] (JInt 7)).
  - reflexivity.
  - reflexivity.
  - reflexivity.
  - reflexivity.
  - vm_compute. reflexivity.
  - decoded_frame
      [("type", JStr "system");
       ("data", JDict [("status", JStr "finished")])].
  - reflexivity.
  - reflexivity.
  - reflexivity.
Defined.

Lemma unknown_frames_witness :
  on_line ping_line (JInt 1) (active 2) = (Ok (Continue, JInt 1), active 2).
Proof.
  apply (unknown_frames_are_ignored ping_line [("type", JStr "ping")]).
  - split; vm_compute; reflexivity.
  - reflexivity.
  - reflexivity.
Defined.

Lemma malformed_log_frames_witness :
  on_line odd_log_line JNull (active 0) = (Ok (Continue, JNull), active 0) /\
  on_line odd_log_line JNull (active 1) = (Raise AttributeError, active 1).
Proof.
  split.
  - apply (malformed_log_frames odd_log_line
             [("type", JStr "log"); ("data", JStr "oops")] (active 0)).
    + split; vm_compute; reflexivity.
    + reflexivity.
    + simpl. lia.
  - apply (malformed_log_frames odd_log_line
             [("type", JStr "log"); ("data", JStr "oops")] (active 1)).
    + split; vm_compute; reflexivity.
    + reflexivity.
    + simpl. lia.
    + simpl. intros H. exact H.
Defined.


Lemma act_result_witness :
  exists r : ActResult.t,
    ActResult.__init__
      (JDict [("success", JBool true);
              ("actions", JList [JDict [("selector", JStr "a")]])]) = Ok r /\
    ActResult.success r
    = dict_get [("success", JBool true);
                ("actions", JList [JDict [("selector", JStr "a")]])]
        "success" (JBool false) /\
    ActResult.message r
    = dict_get [("success", JBool true);
                ("actions", JList [JDict [("selector", JStr "a")]])]
        "message" (JStr "") /\
    map Action.to_dict (ActResult.actions r)
    = [JDict [("selector", JStr "a")]] /\
    ActResult._raw r
    = JDict [("success", JBool true);
             ("actions", JList [JDict [("selector", JStr "a")]])].
Proof.
  apply (act_result_wraps_actions
           [("success", JBool true);
            ("actions", JList [JDict [("selector", JStr "a")]])]
           [JDict [("selector", JStr "a")]]).
  - reflexivity.
  - repeat constructor.
Defined.

Lemma observe_witness :
  exists acts : list Action.t,
    observe (net := serving [finished_line "[{'selector': 'a'}]"])
      (Some "find links") None None (active 0)
    = (Ok acts,
       sending (active 0)
         (execute_request (self (active 0)) "observe"
            (JDict (observe_body (Some "find links") None None)))) /\
    map Action.to_dict acts = [JDict [("selector", JStr "a")]].
Proof.
  assert (Hcall :
    _execute (net := serving [finished_line "[{'selector': 'a'}]"])
      "observe" (JDict (observe_body (Some "find links") None None))
      (active 0)
    = (Ok (JList [JDict [("selector", JStr "a")]]),
       sending (active 0)
         (execute_request (self (active 0)) "observe"
            (JDict (observe_body (Some "find links") None None)))))
    by (vm_compute; reflexivity).
  apply (proj1 (observe_wraps_each_action
                  (net := serving [finished_line "[{'selector': 'a'}]"])
                  (Some "find links") None None (active 0) _ _ Hcall)).
  repeat constructor.
Defined.

Lemma request_bodies_witness :
  sent (snd (extract (net := serving []) (Some "title") None None None
               (active 0)))
  = (sent (active 0)
     ++ [execute_request (self (active 0)) "extract"
           (JDict (extract_body (Some "title") None None None))])%list.
Proof.
  apply (request_bodies_hold_given_arguments (net := serving []) (active 0)
           (Text "click") (Some "title") None None None).
  reflexivity.
Defined.

Lemma agent_execute_body_witness :
  exists exec_opts : dict,
    sent (snd (agent_execute (net := serving []) "buy milk"
                 (Some [("model", JStr "gpt")])
                 (Some [("maxSteps", JInt 3); ("instruction", JStr "other")])
                 None (active 0)))
    = (sent (active 0)
       ++ [execute_request (self (active 0)) "agentExecute"
             (JDict [("agentConfig", JDict [("model", JStr "gpt")]);
                     ("executeOptions", JDict exec_opts);
                     ("frameId", JNull)])])%list /\
    dict_lookup exec_opts "instruction" = Some (JStr "buy milk") /\
    (forall key : string,
       key <> "instruction" ->
       dict_lookup exec_opts key
       = dict_lookup [("maxSteps", JInt 3); ("instruction", JStr "other")]
           key).
Proof.
  apply (agent_execute_body (net := serving []) (active 0) "buy milk"
           (Some [("model", JStr "gpt")])
           (Some [("maxSteps", JInt 3); ("instruction", JStr "other")])
           None).
  reflexivity.
Defined.

(** The body of that call, item by item: the first key of each dict is
    kept. *)
Lemma agent_execute_run :
  sent (snd (agent_execute (net := serving []) "buy milk"
               (Some [("model", JStr "gpt")])
               (Some [("maxSteps", JInt 3); ("instruction", JStr "other")])
               None (active 0)))
  = [execute_request (self (active 0)) "agentExecute"
       (JDict [("agentConfig", JDict [("model", JStr "gpt")]);
               ("executeOptions",
                JDict [("maxSteps", JInt 3);
                       ("instruction", JStr "buy milk")]);
               ("frameId", JNull)])].
Proof. vm_compute. reflexivity. Qed.

Lemma started_session_witness :
  exists (response : Response) (data sid : json),
    send (Network := serving []) (sent (fresh 0))
      (start_request (self (fresh 0)) []) = Ok response /\
    json_ response = Ok data /\
    get data "sessionId" JNull = Ok sid /\
    session_id (self (with_session
                        (sending (fresh 0) (start_request (self (fresh 0)) []))
                        (JStr "sess-1"))) = sid.
Proof.
  destruct (calls_follow_the_started_session (net := serving []) []
              (fresh 0)
              (with_session
                 (sending (fresh 0) (start_request (self (fresh 0)) []))
                 (JStr "sess-1"))
              eq_refl)
    as (response & data & sid & H1 & H2 & H3 & H4 & _).
  exists response, data, sid. now repeat split.
Defined.


End Runs.
